(** * The stock data service: symbol normalisation, interval resolution,
      fetching, enrichment and JSON sanitisation

    A shallow embedding of [src/api/stock_api/stock_service.py].

    Conventions of the embedding.
    - A Python [str] is the list of its Unicode code points.
    - A Python [int] is a [Z]; a Python [float] is an IEEE binary64 value
      ([PrimFloat.float]).
    - Exceptions are explicit: a computation yields [Ok v] or [Raise e].
    - The clock, the market-data provider and the diagnostics written by
      [print] live in an environment and an event trace that the effectful
      functions thread through.
    - pandas and the Unicode tables beyond ASCII are libraries the service
      calls; what the service relies on is taken as the operations of the
      classes [UnicodeDB] and [Pandas].  [pd.to_datetime] is taken on a
      whole column and may raise; a numeric column is an [int64] or a
      [float64] column as a whole.
    - Only what the service wraps in a [try] is caught: the other calls
      raise what the library raises. *)

From Stdlib Require Import List ZArith NArith Lia Bool String Ascii.
From Stdlib Require Import PrimFloat SpecFloat FloatOps FloatAxioms.
From Stdlib Require Import Sorted Permutation.
From Stdlib Require Uint63.
Import ListNotations.

Set Implicit Arguments.

(* ================================================================== *)
(** ** Python strings *)
(* ================================================================== *)

Module PyStr.

Definition codepoint := N.
Definition str := list codepoint.

(** The code points of an ASCII literal. *)
Definition py (s : string) : str :=
  map N_of_ascii (list_ascii_of_string s).

Definition dot : codepoint := 46%N.

Local Open Scope N_scope.

(** [str.isspace] on one code point: the white-space table of CPython
    ([_PyUnicode_IsWhitespace]), which [str.strip()] uses. *)
Definition isspace (c : codepoint) : bool :=
  ((0x09 <=? c) && (c <=? 0x0D)) || ((0x1C <=? c) && (c <=? 0x20))
  || (c =? 0x85) || (c =? 0xA0) || (c =? 0x1680)
  || ((0x2000 <=? c) && (c <=? 0x200A))
  || (c =? 0x2028) || (c =? 0x2029) || (c =? 0x202F) || (c =? 0x205F)
  || (c =? 0x3000).

Local Close Scope N_scope.

Fixpoint lstrip (s : str) : str :=
  match s with
  | [] => []
  | c :: r => if isspace c then lstrip r else s
  end.

Fixpoint rstrip (s : str) : str :=
  match s with
  | [] => []
  | c :: r =>
      match rstrip r with
      | [] => if isspace c then [] else [c]
      | r' => c :: r'
      end
  end.

(** [s.strip()] *)
Definition strip (s : str) : str := rstrip (lstrip s).

(** [s.split(sep)] for a separator of one code point. *)
Fixpoint split (sep : codepoint) (s : str) : list str :=
  match s with
  | [] => [[]]
  | c :: r =>
      if N.eqb c sep then [] :: split sep r
      else match split sep r with
           | p :: ps => (c :: p) :: ps
           | [] => [[c]]
           end
  end.

(** The part of [s] in front of the first [sep] (all of [s] when there is
    none). *)
Fixpoint before (sep : codepoint) (s : str) : str :=
  match s with
  | [] => []
  | c :: r => if N.eqb c sep then [] else c :: before sep r
  end.

Definition is_empty (s : str) : bool :=
  match s with [] => true | _ => false end.

End PyStr.
Import PyStr.

(* ================================================================== *)
(** ** Symbol normaliser *)
(* ================================================================== *)

(** [_normalize_stock_symbol]: [None] gives the empty string, otherwise
    [str(stock_code).strip().split(".")[0].strip()]. *)
Definition _normalize_stock_symbol (stock_code : option str) : str :=
  match stock_code with
  | None => []
  | Some s => strip (hd [] (split dot (strip s)))
  end.

(* ================================================================== *)
(** ** Exceptions *)
(* ================================================================== *)

Inductive exn := ValueError | OverflowError | TypeError.

Inductive result (A : Type) : Type :=
| Ok (a : A)
| Raise (e : exn).
Arguments Ok {A} a.
Arguments Raise {A} e.

Module ExnMonad.

Definition bind {A B : Type} (m : result A) (k : A -> result B) : result B :=
  match m with
  | Ok a => k a
  | Raise e => Raise e
  end.

(** [try: body  except Exception: handler] *)
Definition try_except {A : Type} (body : result A) (handler : exn -> result A)
  : result A :=
  match body with
  | Ok a => Ok a
  | Raise e => handler e
  end.

End ExnMonad.

(* ================================================================== *)
(** ** Text and numbers: [lower], [isdigit], [int], [str] *)
(* ================================================================== *)

(** The Unicode character database outside ASCII, which [str.lower],
    [str.isdigit] and [int] consult.  On ASCII the three are written out
    below. *)
Class UnicodeDB := {
  (** [s.lower()] for a string holding some non-ASCII code point *)
  unicode_lower : str -> str;
  (** [c.isdigit()] for a non-ASCII code point *)
  unicode_isdigit : codepoint -> bool;
  (** the digit [int] reads in a non-ASCII code point, if it is a decimal *)
  unicode_decimal : codepoint -> option Z
}.

Module PyText.
Section WithUnicode.
Context {U : UnicodeDB}.

Definition isascii (c : codepoint) : bool := (c <? 128)%N.

Definition ascii_lower (c : codepoint) : codepoint :=
  if ((65 <=? c) && (c <=? 90))%N then (c + 32)%N else c.

(** [s.lower()] *)
Definition lower (s : str) : str :=
  if forallb isascii s then map ascii_lower s else unicode_lower s.

Definition isdigit_char (c : codepoint) : bool :=
  if isascii c then ((48 <=? c) && (c <=? 57))%N else unicode_isdigit c.

(** [s.isdigit()]: false on the empty string. *)
Definition isdigit (s : str) : bool :=
  negb (is_empty s) && forallb isdigit_char s.

Definition decimal_value (c : codepoint) : option Z :=
  if isascii c then
    if ((48 <=? c) && (c <=? 57))%N then Some (Z.of_N c - 48)%Z else None
  else unicode_decimal c.

Fixpoint int_acc (acc : Z) (s : str) : option Z :=
  match s with
  | [] => Some acc
  | c :: r =>
      match decimal_value c with
      | Some d => int_acc (10 * acc + d)%Z r
      | None => None
      end
  end.

(** [sys.get_int_max_str_digits()], CPython's default. *)
Definition int_max_str_digits : nat := 4300.

(** [int(s)] on the strings the service hands it, which all satisfy
    [s.isdigit()]: a string of decimal digits gives its value; a digit
    that is no decimal (a superscript two, say), or more digits than the
    interpreter converts, gives [ValueError]. *)
Definition int_ (s : str) : result Z :=
  if is_empty s then Raise ValueError
  else if Nat.ltb int_max_str_digits (List.length s) then Raise ValueError
  else match int_acc 0 s with
       | Some n => Ok n
       | None => Raise ValueError
       end.

End WithUnicode.

Definition digit_char (d : Z) : codepoint := Z.to_N (48 + d).

Fixpoint digits_fuel (fuel : nat) (n : Z) (acc : str) : str :=
  match fuel with
  | O => acc
  | S f =>
      let acc' := digit_char (n mod 10) :: acc in
      if (n <? 10)%Z then acc' else digits_fuel f (n / 10) acc'
  end.

(** [str(n)] for an [int]: the decimal digits, after a minus sign when
    negative. *)
Definition str_of_int (n : Z) : str :=
  let digits m := digits_fuel (S (Z.to_nat (Z.log2 m))) m [] in
  if (n <? 0)%Z then 45%N :: digits (- n)%Z else digits n.

End PyText.
Import PyText.

(* ================================================================== *)
(** ** Interval resolver: day count *)
(* ================================================================== *)

(** [IntervalType = Union[str, int, None]] *)
Inductive IntervalType :=
| IntervalNone
| IntervalInt (n : Z)
| IntervalStr (s : str).

Section Interval.
Context {U : UnicodeDB}.
Import ExnMonad.

Definition unit_d : codepoint := 100%N.
Definition unit_m : codepoint := 109%N.
Definition unit_y : codepoint := 121%N.

(** [_parse_interval_to_days(interval, default_days)].  The body below the
    [None] test runs under [try ... except Exception: return default_days]. *)
Definition _parse_interval_to_days (interval : IntervalType) (default_days : Z)
  : result Z :=
  match interval with
  | IntervalNone => Ok default_days
  | IntervalInt n => try_except (Ok (Z.max 1 n)) (fun _ => Ok default_days)
  | IntervalStr s0 =>
      try_except
        (let s := lower (strip s0) in
         if is_empty s then Ok default_days
         else if isdigit s then
           bind (int_ s) (fun n => Ok (Z.max 1 n))
         else
           let unit := last s 0%N in
           let value := removelast s in
           if negb (isdigit value) then Ok default_days
           else
             bind (int_ value) (fun n =>
               if N.eqb unit unit_d then Ok (Z.max 1 n)
               else if N.eqb unit unit_m then Ok (Z.max 1 (n * 30))
               else if N.eqb unit unit_y then Ok (Z.max 1 (n * 365))
               else Ok default_days))
        (fun _ => Ok default_days)
  end.

End Interval.

(* ================================================================== *)
(** ** Dates *)
(* ================================================================== *)

Module PyDate.

(** A [datetime] is kept as the proleptic Gregorian ordinal of its day
    (1 is 0001-01-01); the time of day plays no part in the service. *)
Definition datetime := Z.

Definition min_ordinal : Z := 1.          (* datetime.min: year 1 *)
Definition max_ordinal : Z := 3652059.    (* datetime.max: 9999-12-31 *)
Definition max_delta_days : Z := 999999999.

(** [timedelta(days=n)]: [OverflowError] beyond 999999999 days. *)
Definition timedelta (days : Z) : result Z :=
  if (max_delta_days <? Z.abs days)%Z then Raise OverflowError else Ok days.

(** [dt - delta]: [OverflowError] when the day leaves years 1..9999. *)
Definition datetime_sub (dt : datetime) (delta : Z) : result datetime :=
  let r := (dt - delta)%Z in
  if ((min_ordinal <=? r) && (r <=? max_ordinal))%Z then Ok r
  else Raise OverflowError.

(** The text of a day.  [dashed = true] is the ["%Y-%m-%d"] form that
    [strftime] writes, [dashed = false] the same text with the dashes
    removed; the day is kept in place of the characters. *)
Record date_str := { dashed : bool; day : Z }.

Definition strftime_Ymd (dt : datetime) : date_str :=
  {| dashed := true; day := dt |}.

(** [s.replace("-", "")] on such a text. *)
Definition remove_dashes (s : date_str) : date_str :=
  {| dashed := false; day := day s |}.

End PyDate.
Import PyDate.

(* ================================================================== *)
(** ** Python values and the response sanitiser *)
(* ================================================================== *)

(** The value of a [np.longdouble], of which only the class matters
    here: finite (whichever number), an infinity, or not-a-number. *)
Inductive longdouble :=
| LongFinite (bits : N)
| LongInfinity (negative : bool)
| LongNaN.

(** The objects the sanitiser tells apart.  [NpInteger] is a
    [np.integer], whose [item()] is a Python [int]; [NpFloating] is a
    [np.float16], [np.float32] or [np.float64], whose [item()] is a Python
    [float]; [NpLongDouble] is the one [np.floating] without a Python
    counterpart, whose [item()] is the scalar itself.  [PyObject] is any
    other object (a set, a [Decimal], ...). *)
#[warnings="-register-all"]
Inductive pyobj : Type :=
| PyNone
| PyBool (b : bool)
| PyInt (n : Z)
| PyFloat (f : float)
| PyStr (s : str)
| PyTimestamp (t : Z)
| NpInteger (n : Z)
| NpFloating (f : float)
| NpLongDouble (x : longdouble)
| PyList (items : list pyobj)
| PyTuple (items : list pyobj)
| PyDict (items : list (str * pyobj))
| PyObject (id : N).

(** The [isinstance(obj, float)] branch:
    [if not math.isfinite(obj) or math.isnan(obj): return None]. *)
Definition sanitize_float (f : float) : pyobj :=
  if negb (is_finite f) || is_nan f then PyNone else PyFloat f.

(** [_sanitize_for_json].  A numpy scalar is first replaced by its
    [item()]; what is then a [float] is tested; a [dict] and a [list] are
    rebuilt from their sanitised values; anything else, a tuple and the
    [item()] of a [np.longdouble] among them, is returned as it is. *)
Fixpoint _sanitize_for_json (obj : pyobj) : pyobj :=
  match obj with
  | NpFloating f => sanitize_float f
  | NpLongDouble x => NpLongDouble x
  | NpInteger n => PyInt n
  | PyFloat f => sanitize_float f
  | PyDict items =>
      PyDict (map (fun kv => (fst kv, _sanitize_for_json (snd kv))) items)
  | PyList items => PyList (map _sanitize_for_json items)
  | _ => obj
  end.

(** [len(obj)] *)
Definition len (obj : pyobj) : result Z :=
  match obj with
  | PyList items => Ok (Z.of_nat (List.length items))
  | PyTuple items => Ok (Z.of_nat (List.length items))
  | PyDict items => Ok (Z.of_nat (List.length items))
  | PyStr s => Ok (Z.of_nat (List.length s))
  | _ => Raise TypeError
  end.

(* ================================================================== *)
(** ** Tables *)
(* ================================================================== *)

(** A value of a numeric column: of an [int64] column or of a [float64]
    column. *)
Inductive number :=
| Int64 (z : Z)
| Float64 (f : float).

Definition is_int64 (x : number) : bool :=
  match x with Int64 _ => true | Float64 _ => false end.

(** The conversion of an [int64] to a [float64], to the nearest. *)
Definition float_of_int64 (z : Z) : float :=
  if (z =? - 2 ^ 63)%Z then (-9223372036854775808)%float
  else if (z <? 0)%Z then (- of_uint63 (Uint63.of_Z (- z)))%float
  else of_uint63 (Uint63.of_Z z).

(** [astype(float)] on one value *)
Definition as_float (x : number) : float :=
  match x with
  | Int64 z => float_of_int64 z
  | Float64 f => f
  end.

(** [isna()] on one value: an [int64] column has no missing value. *)
Definition is_missing (x : number) : bool :=
  match x with
  | Int64 _ => false
  | Float64 f => is_nan f
  end.

(** What the service asks of pandas.  A [cell] is a value of the frame the
    provider returns, in whatever form the provider chose.  The rolling
    kernels and the rounding are pandas' own floating-point code; the
    service fixes how they are combined, not what they compute. *)
Class Pandas := {
  cell : Type;
  (** [pd.to_datetime(column, errors="coerce")] on a whole column: it may
      raise; otherwise, value by value, the point in time or [None] for
      [NaT].  What one value becomes may depend on the others. *)
  to_datetime : list cell -> result (list (option Z));
  (** [pd.to_numeric(_, errors="coerce")] on one value: the integer or the
      float it parses to, [nan] when it does not parse, [None] for a value
      on which pandas raises [TypeError] *)
  to_numeric : cell -> option number;
  (** [Series.rolling(window=w, min_periods=1).mean()] *)
  rolling_mean : nat -> list float -> list float;
  (** [Series.rolling(window=w, min_periods=1).std()] *)
  rolling_std : nat -> list float -> list float;
  (** [round(decimals)] on one value of a float column *)
  round : nat -> float -> float
}.

(** One row of the canonical table: the index [Date] and the five
    columns.  A column is an [int64] or a [float64] column as a whole. *)
Record bar := {
  Date : Z;
  Open : number;
  High : number;
  Low : number;
  Close : number;
  Volume : number
}.

(** One row of the enriched table; the indicators are [float64]
    columns. *)
Record enriched := {
  ohlcv : bar;
  MA_10 : float;
  MA_50 : float;
  Daily_Return : float;
  Volatility_20d : float;
  RSI : float
}.

(** The frame of the provider: its column labels and its rows, a row
    giving the cell under each label.  A label may occur more than once
    among the columns; the service raises before it reads a cell of a
    repeated column of its own six. *)
Record RawFrame (cell : Type) := {
  columns : list str;
  raw_rows : list (str -> cell)
}.

Inductive provider_outcome (cell : Type) :=
| ProviderRaises
| ProviderReturns (df : option (RawFrame cell)).
Arguments ProviderRaises {cell}.

(** The labels of [rename_map]. *)
Module Label.
Definition riqi : str := [0x65E5; 0x671F]%N.
Definition kaipan : str := [0x5F00; 0x76D8]%N.
Definition zuigao : str := [0x6700; 0x9AD8]%N.
Definition zuidi : str := [0x6700; 0x4F4E]%N.
Definition shoupan : str := [0x6536; 0x76D8]%N.
Definition chengjiaoliang : str := [0x6210; 0x4EA4; 0x91CF]%N.
End Label.

Definition rename_map : list (str * str) :=
  [ (Label.riqi, py "Date");
    (Label.kaipan, py "Open");
    (Label.zuigao, py "High");
    (Label.zuidi, py "Low");
    (Label.shoupan, py "Close");
    (Label.chengjiaoliang, py "Volume") ].

Definition required : list str :=
  [py "Date"; py "Open"; py "High"; py "Low"; py "Close"; py "Volume"].

Fixpoint str_eqb (a b : str) : bool :=
  match a, b with
  | [], [] => true
  | x :: a', y :: b' => N.eqb x y && str_eqb a' b'
  | _, _ => false
  end.

(** [c in labels] *)
Definition contains (labels : list str) (c : str) : bool :=
  existsb (str_eqb c) labels.

(** [rename(columns=rename_map)] on one label. *)
Fixpoint rename (m : list (str * str)) (c : str) : str :=
  match m with
  | [] => c
  | (k, v) :: m' => if str_eqb k c then v else rename m' c
  end.

(** Whether more than one column carries the label. *)
Definition repeated (labels : list str) (c : str) : bool :=
  (1 <? List.length (filter (str_eqb c) labels))%nat.

(** The values of a list of options, if none is missing. *)
Fixpoint all_some {A : Type} (l : list (option A)) : option (list A) :=
  match l with
  | [] => Some []
  | None :: _ => None
  | Some x :: r =>
      match all_some r with
      | Some xs => Some (x :: xs)
      | None => None
      end
  end.

(** A value as its column holds it: an [int64] column keeps its integers,
    a [float64] column holds every value as a float. *)
Definition cast (int64 : bool) (x : number) : number :=
  if int64 then x else Float64 (as_float x).

(** [sort_index()]: rows by ascending date.  pandas settles the order of
    rows of equal date in a way the service does not fix; insertion keeps
    them in their order of arrival. *)
Fixpoint insert_by_date {A : Type} (x : Z * A) (l : list (Z * A)) : list (Z * A) :=
  match l with
  | [] => [x]
  | y :: l' => if (fst x <=? fst y)%Z then x :: l else y :: insert_by_date x l'
  end.

Definition sort_index {A : Type} (l : list (Z * A)) : list (Z * A) :=
  fold_right insert_by_date [] l.

(* ================================================================== *)
(** ** The world of a request: clock, provider, diagnostics *)
(* ================================================================== *)

Section World.
Context {P : Pandas}.

Inductive diagnostic :=
| AkShareError (symbol : str) (start_date end_date : date_str)
| ColumnErrorNoneKnown (labels : list str)
| ColumnErrorMissing (labels : list str).

Inductive event :=
(** [ak.stock_zh_a_hist(symbol=.., period="daily", start_date=..,
    end_date=.., adjust="qfq")] was called *)
| ProviderCalled (symbol : str) (start_date end_date : date_str)
(** [print(..)] wrote a line *)
| Printed (d : diagnostic).

Record env := {
  (** the day [datetime.now()] falls on *)
  today : datetime;
  (** what the provider answers to a call *)
  stock_zh_a_hist : str -> date_str -> date_str -> provider_outcome cell
}.

(** An effectful computation reads the environment, extends the trace of
    events (latest last) and returns or raises. *)
Definition M (A : Type) : Type := env -> list event -> result A * list event.

Definition ret {A : Type} (a : A) : M A := fun _ tr => (Ok a, tr).

Definition bindM {A B : Type} (m : M A) (k : A -> M B) : M B :=
  fun e tr =>
    match m e tr with
    | (Ok a, tr') => k a e tr'
    | (Raise x, tr') => (Raise x, tr')
    end.

Definition lift {A : Type} (r : result A) : M A := fun _ tr => (r, tr).

Definition datetime_now : M datetime := fun e tr => (Ok (today e), tr).

Definition call_provider (symbol : str) (start_date end_date : date_str)
  : M (provider_outcome cell) :=
  fun e tr =>
    (Ok (stock_zh_a_hist e symbol start_date end_date),
     tr ++ [ProviderCalled symbol start_date end_date]).

Definition print (d : diagnostic) : M unit :=
  fun _ tr => (Ok tt, tr ++ [Printed d]).

End World.

Declare Scope service_scope.
Delimit Scope service_scope with service.
Notation "x <- m ;; k" := (bindM m (fun x => k))
  (at level 61, m at next level, right associativity) : service_scope.
Notation "m ;;; k" := (bindM m (fun _ => k))
  (at level 61, right associativity) : service_scope.

(* ================================================================== *)
(** ** Interval resolver: date range *)
(* ================================================================== *)

Section Service.
Context {U : UnicodeDB} {P : Pandas}.
Import ExnMonad.
Local Open Scope service_scope.

(** [_calc_date_range(interval)]: (start_date, end_date, normalised
    interval). *)
Definition _calc_date_range (interval : IntervalType)
  : M (date_str * date_str * str) :=
  days <- lift (_parse_interval_to_days interval 365) ;;
  end_dt <- datetime_now ;;
  delta <- lift (timedelta days) ;;
  start_dt <- lift (datetime_sub end_dt delta) ;;
  ret (strftime_Ymd start_dt, strftime_Ymd end_dt, str_of_int days ++ py "d").

(* ================================================================== *)
(** ** Data fetcher *)
(* ================================================================== *)

(** [df.empty]: some axis has length 0. *)
Definition frame_empty (df : RawFrame cell) : bool :=
  match columns df, raw_rows df with
  | [], _ | _, [] => true
  | _, _ => false
  end.

(** [pd.to_numeric(column, errors="coerce")]: every value converted, the
    column [int64] if all of them are integers and [float64] otherwise;
    [TypeError] if pandas raises on one of them. *)
Definition to_numeric_column (cells : list cell) : result (list number) :=
  match all_some (map to_numeric cells) with
  | None => Raise TypeError
  | Some values => Ok (map (cast (forallb is_int64 values)) values)
  end.

(** [df[label]] of a frame indexed by date *)
Definition column (label : str) (rows : list (Z * (str -> cell)))
  : list cell :=
  map (fun dr => snd dr label) rows.

(** The last six lines of [fetch_china_stock_data], on a frame that has
    the six columns: parse the dates, drop the rows without one, index and
    sort by date, make the columns numeric, drop the rows whose [Close] is
    missing.  None of this is inside a [try]: what pandas raises, the
    fetcher raises.  Under a repeated label [df[label]] is a frame, not a
    column, on which [pd.to_datetime] raises [ValueError] and
    [pd.to_numeric] raises [TypeError]. *)
Definition standardise (df : RawFrame cell) : result (list bar) :=
  bind
    (if repeated (columns df) Label.riqi then Raise ValueError
     else to_datetime (map (fun r => r Label.riqi) (raw_rows df)))
    (fun dates =>
  let kept :=
    flat_map (fun dr => match fst dr with
                        | Some d => [(d, snd dr)]
                        | None => []
                        end) (combine dates (raw_rows df)) in
  let sorted := sort_index kept in
  let numeric (label : str) :=
    if repeated (columns df) label then Raise TypeError
    else to_numeric_column (column label sorted) in
  bind (numeric Label.kaipan) (fun open =>
  bind (numeric Label.zuigao) (fun high =>
  bind (numeric Label.zuidi) (fun low =>
  bind (numeric Label.shoupan) (fun close =>
  bind (numeric Label.chengjiaoliang) (fun volume =>
  let table :=
    map (fun row =>
           {| Date := fst (fst row);
              Open := fst (snd row);
              High := fst (snd (snd row));
              Low := fst (snd (snd (snd row)));
              Close := fst (snd (snd (snd (snd row))));
              Volume := snd (snd (snd (snd (snd row)))) |})
        (combine sorted
           (combine open (combine high (combine low (combine close volume)))))
  in
  Ok (filter (fun b => negb (is_missing (Close b))) table))))))).

(** [fetch_china_stock_data(stock_code, start_date, end_date)]; the empty
    list is the empty frame.  Only the call of the provider is inside the
    [try]. *)
Definition fetch_china_stock_data
  (stock_code : option str) (start_date end_date : date_str) : M (list bar) :=
  let symbol := _normalize_stock_symbol stock_code in
  if is_empty symbol then ret []
  else
    let start_date_clean := remove_dashes start_date in
    let end_date_clean := remove_dashes end_date in
    answer <- call_provider symbol start_date_clean end_date_clean ;;
    match answer with
    | ProviderRaises =>
        print (AkShareError symbol start_date end_date) ;;; ret []
    | ProviderReturns None => ret []
    | ProviderReturns (Some df) =>
        if frame_empty df then ret []
        else
          let existing :=
            filter (contains (columns df)) (map fst rename_map) in
          match existing with
          | [] => print (ColumnErrorNoneKnown (columns df)) ;;; ret []
          | _ =>
              let selected :=
                flat_map (fun k => filter (str_eqb k) (columns df)) existing in
              let renamed := map (rename rename_map) selected in
              if negb (forallb (contains renamed) required) then
                print (ColumnErrorMissing renamed) ;;; ret []
              else lift (standardise df)
          end
    end.

(* ================================================================== *)
(** ** Indicator engine *)
(* ================================================================== *)

Local Open Scope float_scope.

(** [s.diff()] *)
Definition diff (s : list float) : list float :=
  match s with
  | [] => []
  | _ :: later => nan :: map (fun p => fst p - snd p) (combine later s)
  end.

(** [s.pct_change()] on a series without missing values *)
Definition pct_change (s : list float) : list float :=
  match s with
  | [] => []
  | _ :: later => nan :: map (fun p => fst p / snd p - 1) (combine later s)
  end.

(** [s.clip(lower=0)] on one value *)
Definition clip_lower_0 (x : float) : float := if x <? 0 then 0 else x.

(** [s.replace(0, np.nan)] on one value *)
Definition replace_0_nan (x : float) : float := if x =? 0 then nan else x.

(** The series [avg_gain] and [avg_loss] of [feature_engineering], from
    the closes. *)
Definition avg_gain (close : list float) : list float :=
  let delta := diff close in
  let gain := map clip_lower_0 delta in
  rolling_mean 14 gain.

Definition avg_loss (close : list float) : list float :=
  let delta := diff close in
  let loss := map (fun d => clip_lower_0 (- d)) delta in
  rolling_mean 14 loss.

(** [rs = avg_gain / avg_loss.replace(0, np.nan)] and
    [100 - (100 / (1 + rs))] *)
Definition rsi (close : list float) : list float :=
  let rs :=
    map (fun p => fst p / snd p)
        (combine (avg_gain close) (map replace_0_nan (avg_loss close))) in
  map (fun x => 100 - (100 / (1 + x))) rs.

(** [round(4)] on one value of a column: the float columns are rounded, a
    column of [int64] is not among them. *)
Definition round_column (x : number) : number :=
  match x with
  | Int64 z => Int64 z
  | Float64 f => Float64 (round 4 f)
  end.

(** [feature_engineering(df)] *)
Definition feature_engineering (df : list bar) : list enriched :=
  match df with
  | [] => []
  | _ =>
      let close := map (fun b => as_float (Close b)) df in
      let ma_10 := rolling_mean 10 close in
      let ma_50 := rolling_mean 50 close in
      let daily_return := pct_change close in
      let volatility_20d := rolling_std 20 daily_return in
      let at_ (col : list float) (i : nat) := round 4 (nth i col nan) in
      map (fun ib =>
             let i := fst ib in
             let b := snd ib in
             {| ohlcv := {| Date := Date b;
                            Open := round_column (Open b);
                            High := round_column (High b);
                            Low := round_column (Low b);
                            Close := round_column (Close b);
                            Volume := round_column (Volume b) |};
                MA_10 := at_ ma_10 i;
                MA_50 := at_ ma_50 i;
                Daily_Return := at_ daily_return i;
                Volatility_20d := at_ volatility_20d i;
                RSI := at_ (rsi close) i |})
          (combine (seq 0 (List.length df)) df)
  end.

Local Close Scope float_scope.

(* ================================================================== *)
(** ** Pipeline orchestrator *)
(* ================================================================== *)

(** A value of a numeric column as [to_dict] boxes it: a Python [int] or
    a Python [float]. *)
Definition native (x : number) : pyobj :=
  match x with
  | Int64 z => PyInt z
  | Float64 f => PyFloat f
  end.

(** One row as [df.reset_index().to_dict(orient="records")] gives it: the
    index back as the first column, then the columns in the order they
    were added; the date is the table's [Timestamp]. *)
Definition to_record (r : enriched) : pyobj :=
  PyDict
    [ (py "Date", PyTimestamp (Date (ohlcv r)));
      (py "Open", native (Open (ohlcv r)));
      (py "High", native (High (ohlcv r)));
      (py "Low", native (Low (ohlcv r)));
      (py "Close", native (Close (ohlcv r)));
      (py "Volume", native (Volume (ohlcv r)));
      (py "MA_10", PyFloat (MA_10 r));
      (py "MA_50", PyFloat (MA_50 r));
      (py "Daily_Return", PyFloat (Daily_Return r));
      (py "Volatility_20d", PyFloat (Volatility_20d r));
      (py "RSI", PyFloat (RSI r)) ].

Definition to_dict_records (df : list enriched) : pyobj :=
  PyList (map to_record df).

Record meta := {
  stock_code : option str;
  symbol : str;
  start_date : date_str;
  end_date : date_str;
  interval : str;
  rows : Z
}.

Record envelope := {
  success : bool;
  message : str;
  meta_ : meta;
  data : pyobj
}.

(** [get_stock_data_with_features(stock_code, interval)] *)
Definition get_stock_data_with_features
  (stock_code : option str) (interval : IntervalType) : M envelope :=
  range <- _calc_date_range interval ;;
  let '(start_date, end_date, interval_norm) := range in
  let symbol := _normalize_stock_symbol stock_code in
  if is_empty symbol then
    ret {| success := false;
           message := py "Error: stock_code cannot be empty.";
           meta_ := {| stock_code := stock_code; symbol := [];
                       start_date := start_date; end_date := end_date;
                       interval := interval_norm; rows := 0 |};
           data := PyList [] |}
  else
    df <- fetch_china_stock_data (Some symbol) start_date end_date ;;
    match df with
    | [] =>
        ret {| success := false;
               message := py "No data found for stock " ++ symbol ++ py ".";
               meta_ := {| stock_code := stock_code; symbol := symbol;
                           start_date := start_date; end_date := end_date;
                           interval := interval_norm; rows := 0 |};
               data := PyList [] |}
    | _ =>
        let df := feature_engineering df in
        let records := to_dict_records df in
        let records := _sanitize_for_json records in
        n <- lift (len records) ;;
        ret {| success := true;
               message := py "Successfully retrieved stock data for " ++ symbol;
               meta_ := {| stock_code := stock_code; symbol := symbol;
                           start_date := start_date; end_date := end_date;
                           interval := interval_norm; rows := n |};
               data := records |}
    end.

End Service.

(* ================================================================== *)
(** ** The HTTP handlers of [main.py] *)
(* ================================================================== *)

Module Api.
Section Handlers.
Context {U : UnicodeDB} {P : Pandas}.

(** [interval: str | int] of [StockRequest] *)
Inductive str_or_int :=
| AsStr (s : str)
| AsInt (n : Z).

(** [class StockRequest(BaseModel)] *)
Record StockRequest := {
  req_stock_code : str;
  req_interval : str_or_int
}.

(** [get_stock(stock_code, interval)]: the handler of
    [GET /stocks/{stock_code}], whose interval is the text of the query. *)
Definition get_stock (stock_code : str) (interval : str) : M envelope :=
  get_stock_data_with_features (Some stock_code) (IntervalStr interval).

(** [post_stock(req)]: the handler of [POST /stocks]. *)
Definition post_stock (req : StockRequest) : M envelope :=
  get_stock_data_with_features
    (Some (req_stock_code req))
    (match req_interval req with
     | AsStr s => IntervalStr s
     | AsInt n => IntervalInt n
     end).

End Handlers.
End Api.

(* ================================================================== *)
(** ** Properties used to state the results *)
(* ================================================================== *)

(** [r] is [s] without its surrounding white space: [s] is [r] between two
    runs of white space, and [r] neither starts nor ends with any. *)
Definition trimmed_of (s r : str) : Prop :=
  exists pre post,
    s = pre ++ r ++ post /\
    forallb isspace pre = true /\ forallb isspace post = true /\
    (forall c, hd_error r = Some c -> isspace c = false) /\
    (forall c, hd_error (rev r) = Some c -> isspace c = false).

Definition is_decimal_char (c : codepoint) : Prop := (48 <= c <= 57)%N.

(** Numbers below [2 ^ 4299]: their decimal text has fewer than 4300
    digits, so [int] converts it back. *)
Definition convertible (n : Z) : Prop := (0 <= n < 2 ^ 4299)%Z.

(** The natural numbers whose decimal text [int] converts back: those
    written with at most 4300 digits. *)
Definition within_digit_limit (n : Z) : bool :=
  (0 <=? n)%Z && (List.length (str_of_int n) <=? 4300)%nat.

(** Characters that [strip] and [lower] leave alone. *)
Definition inert (c : codepoint) : Prop :=
  isspace c = false /\ isascii c = true /\ ascii_lower c = c.

(** What a unit letter selects. *)
Definition days_of_unit (u : codepoint) (n default_days : Z) : Z :=
  if N.eqb u unit_d then Z.max 1 n
  else if N.eqb u unit_m then Z.max 1 (n * 30)
  else if N.eqb u unit_y then Z.max 1 (n * 365)
  else default_days.

Section RangeProperties.
Context {U : UnicodeDB} {P : Pandas}.

(** The clock shows a day [datetime] can hold. *)
Definition clock_in_range (e : env) : Prop :=
  (min_ordinal <= today e <= max_ordinal)%Z.

(** Resolving [i] gives a range of [days] days that ends today, named
    ["<days>d"], and leaves the trace alone. *)
Definition resolves_to (i : IntervalType) (e : env) (days : Z) : Prop :=
  forall tr, exists first_day last_day,
    _calc_date_range i e tr =
      (Ok (first_day, last_day, str_of_int days ++ py "d"), tr) /\
    last_day = strftime_Ymd (today e) /\
    dashed first_day = true /\
    (day last_day - day first_day = days)%Z.

End RangeProperties.

(** The three envelopes the orchestrator builds. *)
Definition empty_symbol_envelope
  (stock_code : option str) (range : date_str * date_str * str) : envelope :=
  {| success := false;
     message := py "Error: stock_code cannot be empty.";
     meta_ := {| stock_code := stock_code; symbol := [];
                 start_date := fst (fst range); end_date := snd (fst range);
                 interval := snd range; rows := 0 |};
     data := PyList [] |}.

Definition no_data_envelope
  (stock_code : option str) (symbol : str) (range : date_str * date_str * str)
  : envelope :=
  {| success := false;
     message := py "No data found for stock " ++ symbol ++ py ".";
     meta_ := {| stock_code := stock_code; symbol := symbol;
                 start_date := fst (fst range); end_date := snd (fst range);
                 interval := snd range; rows := 0 |};
     data := PyList [] |}.

Definition success_envelope
  (stock_code : option str) (symbol : str) (range : date_str * date_str * str)
  (records : list pyobj) : envelope :=
  {| success := true;
     message := py "Successfully retrieved stock data for " ++ symbol;
     meta_ := {| stock_code := stock_code; symbol := symbol;
                 start_date := fst (fst range); end_date := snd (fst range);
                 interval := snd range;
                 rows := Z.of_nat (List.length records) |};
     data := PyList records |}.

Definition is_container (o : pyobj) : bool :=
  match o with
  | PyList _ | PyDict _ => true
  | _ => false
  end.

(** No float that is not finite, at any depth of lists, tuples and
    dicts. *)
Fixpoint finite_throughout (o : pyobj) : bool :=
  match o with
  | PyFloat f | NpFloating f => is_finite f
  | NpLongDouble (LongFinite _) => true
  | NpLongDouble _ => false
  | PyList items | PyTuple items => forallb finite_throughout items
  | PyDict items => forallb (fun kv => finite_throughout (snd kv)) items
  | _ => true
  end.

(** Neither a [np.longdouble] nor a tuple, at any depth of lists and
    dicts. *)
Fixpoint within_reach (o : pyobj) : bool :=
  match o with
  | NpLongDouble _ | PyTuple _ => false
  | PyList items => forallb within_reach items
  | PyDict items => forallb (fun kv => within_reach (snd kv)) items
  | _ => true
  end.

(** At any depth of lists and dicts: every Python float is finite, and of
    the numpy scalars only a [np.longdouble] may be left. *)
Fixpoint plain (o : pyobj) : bool :=
  match o with
  | PyFloat f => is_finite f
  | NpFloating _ | NpInteger _ => false
  | PyList items => forallb plain items
  | PyDict items => forallb (fun kv => plain (snd kv)) items
  | _ => true
  end.

(** A value of a numeric column after [to_dict] and sanitising. *)
Definition sanitized_number (x : number) : pyobj :=
  match x with
  | Int64 z => PyInt z
  | Float64 f => sanitize_float f
  end.

(** The record of one enriched row after sanitising. *)
Definition sanitized_record (r : enriched) : pyobj :=
  PyDict
    [ (py "Date", PyTimestamp (Date (ohlcv r)));
      (py "Open", sanitized_number (Open (ohlcv r)));
      (py "High", sanitized_number (High (ohlcv r)));
      (py "Low", sanitized_number (Low (ohlcv r)));
      (py "Close", sanitized_number (Close (ohlcv r)));
      (py "Volume", sanitized_number (Volume (ohlcv r)));
      (py "MA_10", sanitize_float (MA_10 r));
      (py "MA_50", sanitize_float (MA_50 r));
      (py "Daily_Return", sanitize_float (Daily_Return r));
      (py "Volatility_20d", sanitize_float (Volatility_20d r));
      (py "RSI", sanitize_float (RSI r)) ].

Definition column_order : list str :=
  [ py "Date"; py "Open"; py "High"; py "Low"; py "Close"; py "Volume";
    py "MA_10"; py "MA_50"; py "Daily_Return"; py "Volatility_20d";
    py "RSI" ].

(** The keys of a record, in order. *)
Definition keys (o : pyobj) : list str :=
  match o with
  | PyDict items => map fst items
  | _ => []
  end.

(** The value under a key. *)
Definition get (o : pyobj) (k : str) : option pyobj :=
  match o with
  | PyDict items =>
      match find (fun kv => str_eqb (fst kv) k) items with
      | Some kv => Some (snd kv)
      | None => None
      end
  | _ => None
  end.

Definition is_str (o : pyobj) : bool :=
  match o with PyStr _ => true | _ => false end.

Definition is_ascii_letter (c : codepoint) : Prop :=
  (65 <= c <= 90 \/ 97 <= c <= 122)%N.

Section TableProperties.
Context {P : Pandas}.

(** The frame carries each of the six labels of [rename_map]. *)
Definition has_six_columns (df : RawFrame cell) : bool :=
  forallb (contains (columns df)) (map fst rename_map).

(** The rows of a frame that have a date, each with its date, in the
    provider's order; none if [pd.to_datetime] raises. *)
Definition dated_rows (df : RawFrame cell) : list (Z * (str -> cell)) :=
  match to_datetime (map (fun r => r Label.riqi) (raw_rows df)) with
  | Ok dates =>
      flat_map (fun dr => match fst dr with
                          | Some d => [(d, snd dr)]
                          | None => []
                          end) (combine dates (raw_rows df))
  | Raise _ => []
  end.

(** The number pandas makes of a cell it converts. *)
Definition value_of (c : cell) : number :=
  match to_numeric c with
  | Some x => x
  | None => Float64 nan
  end.

(** Whether every value under a label converts to an integer. *)
Definition int64_column (label : str) (rows : list (Z * (str -> cell)))
  : bool :=
  forallb (fun dr => is_int64 (value_of (snd dr label))) rows.

(** The bar of one dated row, its numbers held as the columns of [rows]
    hold them. *)
Definition bar_of_row (rows : list (Z * (str -> cell)))
  (dr : Z * (str -> cell)) : bar :=
  let number_at label :=
    cast (int64_column label rows) (value_of (snd dr label)) in
  {| Date := fst dr;
     Open := number_at Label.kaipan;
     High := number_at Label.zuigao;
     Low := number_at Label.zuidi;
     Close := number_at Label.shoupan;
     Volume := number_at Label.chengjiaoliang |}.

(** The bars of the provider rows that have a date and a close, in the
    provider's order. *)
Definition kept_bars (df : RawFrame cell) : list bar :=
  filter (fun b => negb (is_missing (Close b)))
         (map (bar_of_row (dated_rows df)) (dated_rows df)).

(** A bar with its float columns rounded to 4 decimals. *)
Definition rounded (b : bar) : bar :=
  {| Date := Date b;
     Open := round_column (Open b);
     High := round_column (High b);
     Low := round_column (Low b);
     Close := round_column (Close b);
     Volume := round_column (Volume b) |}.

(** The events a request may add to the trace: none, the call of the
    provider, or the call followed by one diagnostic. *)
Definition at_most_one_call (symbol : str) (first_day last_day : date_str)
  (evs : list event) : Prop :=
  evs = [] \/
  evs = [ProviderCalled symbol (remove_dashes first_day)
           (remove_dashes last_day)] \/
  exists d,
    evs = [ProviderCalled symbol (remove_dashes first_day)
             (remove_dashes last_day); Printed d].

End TableProperties.

(** An envelope without the stock code it echoes. *)
Definition apart_from_stock_code (r : envelope)
  : bool * str * (str * date_str * date_str * str * Z) * pyobj :=
  (success r, message r,
   (symbol (meta_ r), start_date (meta_ r), end_date (meta_ r),
    interval (meta_ r), rows (meta_ r)),
   data r).

(* ================================================================== *)
(** ** Sample data for running the service *)
(* ================================================================== *)

Module Sample.

(** The Unicode tables cut down to code points below 256: the superscript
    digits are digits and no decimals, capital letters with accents have a
    small form 32 places up. *)
Definition latin1 : UnicodeDB :=
  {| unicode_lower :=
       map (fun c =>
              if (c <? 128)%N then ascii_lower c
              else if ((0xC0 <=? c) && (c <=? 0xDE) && negb (c =? 0xD7))%N
                   then (c + 32)%N else c);
     unicode_isdigit := fun c => ((c =? 0xB2) || (c =? 0xB3) || (c =? 0xB9))%N;
     unicode_decimal := fun _ => None |}.

Inductive sample_cell :=
| Day (t : Z)
| Number (f : float)
| Count (z : Z)
| Text (s : str)
| Nested.

(** A stand-in for pandas, enough to run the service: a [Day] is the only
    cell that parses as a date, whatever the other cells of its column; a
    [Number] parses as a float and a [Count] as an integer, a [Nested]
    cell is one on which [pd.to_numeric] raises, any other cell is not a
    number; the rolling kernels and the rounding return their input. *)
Definition frames : Pandas :=
  {| cell := sample_cell;
     to_datetime :=
       fun column =>
         Ok (map (fun c => match c with Day t => Some t | _ => None end)
                 column);
     to_numeric :=
       fun c => match c with
                | Number f => Some (Float64 f)
                | Count z => Some (Int64 z)
                | Nested => None
                | _ => Some (Float64 nan)
                end;
     rolling_mean := fun _ s => s;
     rolling_std := fun _ s => s;
     round := fun _ x => x |}.

(** A row of a provider frame: date, open, high, low, close, volume. *)
Definition raw_row (d o h l c v : sample_cell) : str -> sample_cell :=
  fun label =>
    if str_eqb label Label.riqi then d
    else if str_eqb label Label.kaipan then o
    else if str_eqb label Label.zuigao then h
    else if str_eqb label Label.zuidi then l
    else if str_eqb label Label.shoupan then c
    else if str_eqb label Label.chengjiaoliang then v
    else Text [].

Definition six_labels : list str :=
  [ Label.riqi; Label.kaipan; Label.zuigao; Label.zuidi; Label.shoupan;
    Label.chengjiaoliang ].

(** Two bars of the same day, the second with an infinite close. *)
Definition twice_the_same_day : RawFrame sample_cell :=
  {| columns := six_labels;
     raw_rows :=
       [ raw_row (Day 20240102) (Number 10) (Number 12) (Number 9)
                 (Number 11) (Count 1000);
         raw_row (Day 20240102) (Number 10) (Number 12) (Number 9)
                 (Number infinity) (Count 1000) ] |}.

(** 3 November 2026, a provider that always answers with the frame
    above. *)
Definition world : @env frames :=
  @Build_env frames 739923%Z
    (fun _ _ _ => ProviderReturns (Some twice_the_same_day)).

End Sample.

Module MoreSamples.
Import Sample.

Definition bar_of_3_January : str -> sample_cell :=
  raw_row (Day 20240103) (Number 11) (Number 13) (Number 10) (Number 12)
          (Count 1500).

Definition bar_of_2_January : str -> sample_cell :=
  raw_row (Day 20240102) (Number 10) (Number 12) (Number 9) (Number 11)
          (Count 1000).

(** Two bars, the later one first. *)
Definition two_days : list (str -> sample_cell) :=
  [bar_of_3_January; bar_of_2_January].

(** A frame that lacks the volume column. *)
Definition no_volume : RawFrame sample_cell :=
  {| columns := [ Label.riqi; Label.kaipan; Label.zuigao; Label.zuidi;
                  Label.shoupan ];
     raw_rows := two_days |}.

(** 3 November 2026, a provider that answers with [no_volume]. *)
Definition world_without_volume : @env frames :=
  @Build_env frames 739923%Z (fun _ _ _ => ProviderReturns (Some no_volume)).

(** A frame in which two columns carry the label of the close. *)
Definition close_twice : RawFrame sample_cell :=
  {| columns := six_labels ++ [Label.shoupan];
     raw_rows := two_days |}.

(** 3 November 2026, a provider that answers with [close_twice]. *)
Definition world_with_close_twice : @env frames :=
  @Build_env frames 739923%Z
    (fun _ _ _ => ProviderReturns (Some close_twice)).

(** Two bars with a rising close. *)
Definition rising : list bar :=
  [ {| Date := 20240102; Open := Float64 10; High := Float64 12;
       Low := Float64 9; Close := Float64 11; Volume := Int64 1000 |};
    {| Date := 20240103; Open := Float64 11; High := Float64 13;
       Low := Float64 10; Close := Float64 12; Volume := Int64 1500 |} ].

End MoreSamples.

(* ================================================================== *)
(** ** Facts about strings *)
(* ================================================================== *)

Section StripFacts.

Lemma lstrip_idem (s : str) : lstrip (lstrip s) = lstrip s.
Proof.
  induction s as [|c r IH]; simpl; trivial.
  destruct (isspace c) eqn:E; trivial.
  simpl. now rewrite E.
Qed.

Lemma rstrip_cons (c : codepoint) (r : str) :
  rstrip (c :: r) =
  match rstrip r with
  | [] => if isspace c then [] else [c]
  | r' => c :: r'
  end.
Proof. reflexivity. Qed.

Lemma rstrip_idem (s : str) : rstrip (rstrip s) = rstrip s.
Proof.
  induction s as [|c r IH]; trivial.
  rewrite rstrip_cons.
  destruct (rstrip r) as [|x xs] eqn:E.
  - destruct (isspace c) eqn:Ec; trivial.
    simpl. now rewrite Ec.
  - rewrite rstrip_cons, IH. reflexivity.
Qed.

Lemma lstrip_rstrip (s : str) : lstrip (rstrip s) = rstrip (lstrip s).
Proof.
  induction s as [|c r IH]; trivial.
  rewrite rstrip_cons. simpl lstrip at 2.
  destruct (isspace c) eqn:Ec.
  - destruct (rstrip r) as [|x xs] eqn:E.
    + now rewrite <- IH.
    + rewrite <- IH. simpl. now rewrite Ec.
  - rewrite rstrip_cons.
    destruct (rstrip r) as [|x xs] eqn:E; simpl; now rewrite Ec.
Qed.

Lemma strip_idem (s : str) : strip (strip s) = strip s.
Proof.
  unfold strip.
  now rewrite lstrip_rstrip, lstrip_idem, rstrip_idem.
Qed.

Lemma isspace_dot : isspace dot = false.
Proof. reflexivity. Qed.

Lemma isspace_not_dot (c : codepoint) : isspace c = true -> N.eqb c dot = false.
Proof.
  intros H. destruct (N.eqb_spec c dot) as [->|]; trivial.
  now rewrite isspace_dot in H.
Qed.

Lemma before_cons (sep c : codepoint) (r : str) :
  before sep (c :: r) = if N.eqb c sep then [] else c :: before sep r.
Proof. reflexivity. Qed.

Lemma hd_split (sep : codepoint) (s : str) :
  hd [] (split sep s) = before sep s.
Proof.
  induction s as [|c r IH]; simpl; trivial.
  destruct (N.eqb c sep); trivial.
  destruct (split sep r) as [|p ps]; simpl in *; now rewrite <- IH.
Qed.

Lemma before_lstrip (s : str) : before dot (lstrip s) = lstrip (before dot s).
Proof.
  induction s as [|c r IH]; simpl; trivial.
  destruct (isspace c) eqn:Ec.
  - rewrite (isspace_not_dot _ Ec). simpl. now rewrite Ec.
  - simpl. destruct (N.eqb c dot); simpl; trivial. now rewrite Ec.
Qed.

Lemma rstrip_before_rstrip (s : str) :
  rstrip (before dot (rstrip s)) = rstrip (before dot s).
Proof.
  induction s as [|c r IH]; trivial.
  rewrite rstrip_cons.
  destruct (rstrip r) as [|x xs] eqn:E.
  - simpl in IH.
    destruct (isspace c) eqn:Ec.
    + simpl. rewrite (isspace_not_dot _ Ec), rstrip_cons, <- IH. now rewrite Ec.
    + simpl. destruct (N.eqb c dot); trivial.
      rewrite !rstrip_cons, <- IH. reflexivity.
  - rewrite (before_cons dot c (x :: xs)), (before_cons dot c r).
    destruct (N.eqb c dot); trivial.
    now rewrite !rstrip_cons, IH.
Qed.

Lemma strip_before_strip (s : str) :
  strip (before dot (strip s)) = strip (before dot s).
Proof.
  unfold strip.
  rewrite <- (lstrip_rstrip (before dot _)), rstrip_before_rstrip.
  rewrite before_lstrip, <- lstrip_rstrip.
  apply lstrip_idem.
Qed.

Lemma In_lstrip (c : codepoint) (s : str) : In c (lstrip s) -> In c s.
Proof.
  induction s as [|d r IH]; simpl; trivial.
  destruct (isspace d); simpl; auto.
Qed.

Lemma In_rstrip (c : codepoint) (s : str) : In c (rstrip s) -> In c s.
Proof.
  induction s as [|d r IH]; trivial.
  rewrite rstrip_cons.
  destruct (rstrip r) as [|x xs].
  - destruct (isspace d); simpl; tauto.
  - simpl in *. tauto.
Qed.

Lemma In_strip (c : codepoint) (s : str) : In c (strip s) -> In c s.
Proof. intros H. now apply In_lstrip, In_rstrip. Qed.

Lemma before_no_sep (sep : codepoint) (s : str) : ~ In sep (before sep s).
Proof.
  induction s as [|c r IH]; simpl; auto.
  destruct (N.eqb_spec c sep); simpl; intuition congruence.
Qed.

Lemma before_id (sep : codepoint) (s : str) : ~ In sep s -> before sep s = s.
Proof.
  induction s as [|c r IH]; simpl; trivial.
  intros H. destruct (N.eqb_spec c sep) as [->|]; [tauto|].
  f_equal. apply IH. tauto.
Qed.

End StripFacts.

Lemma normalize_spec (s : str) :
  _normalize_stock_symbol (Some s) = strip (before dot s).
Proof.
  unfold _normalize_stock_symbol.
  rewrite hd_split. apply strip_before_strip.
Qed.

Lemma normalize_no_dot (o : option str) : ~ In dot (_normalize_stock_symbol o).
Proof.
  destruct o as [s|]; [|simpl; tauto].
  rewrite normalize_spec. intros H. apply In_strip in H.
  now apply before_no_sep in H.
Qed.

Lemma normalize_stripped (o : option str) :
  strip (_normalize_stock_symbol o) = _normalize_stock_symbol o.
Proof.
  destruct o as [s|]; [|reflexivity].
  rewrite normalize_spec. apply strip_idem.
Qed.

Lemma normalize_fixed (o : option str) :
  _normalize_stock_symbol (Some (_normalize_stock_symbol o)) =
  _normalize_stock_symbol o.
Proof.
  rewrite normalize_spec, before_id by apply normalize_no_dot.
  apply normalize_stripped.
Qed.

(* ================================================================== *)
(** ** Trimming, stated on its own *)
(* ================================================================== *)

Section TrimFacts.

Lemma lstrip_split (s : str) :
  exists pre, s = pre ++ lstrip s /\ forallb isspace pre = true.
Proof.
  induction s as [|c r (pre & E & Hpre)]; [now exists []|].
  simpl. destruct (isspace c) eqn:Ec.
  - exists (c :: pre). simpl. rewrite Ec, Hpre. split; [now f_equal|reflexivity].
  - now exists [].
Qed.

Lemma rstrip_split (s : str) :
  exists post, s = rstrip s ++ post /\ forallb isspace post = true.
Proof.
  induction s as [|c r (post & E & Hpost)]; [now exists []|].
  rewrite rstrip_cons.
  destruct (rstrip r) as [|x xs] eqn:Er.
  - simpl in E. subst r.
    destruct (isspace c) eqn:Ec.
    + exists (c :: post). simpl. now rewrite Ec, Hpost.
    + now exists post.
  - exists post. simpl. split; [now f_equal|assumption].
Qed.

Lemma lstrip_head (s : str) (c : codepoint) :
  hd_error (lstrip s) = Some c -> isspace c = false.
Proof.
  induction s as [|d r IH]; simpl; [discriminate|].
  destruct (isspace d) eqn:Ed; trivial.
  simpl. now intros [= <-].
Qed.

Lemma rstrip_head (s : str) (c : codepoint) :
  (forall d, hd_error s = Some d -> isspace d = false) ->
  hd_error (rstrip s) = Some c -> isspace c = false.
Proof.
  destruct s as [|d r]; [discriminate|].
  intros H. rewrite rstrip_cons.
  destruct (rstrip r); [rewrite (H d eq_refl)|]; simpl; intros [= <-]; now apply H.
Qed.

Lemma rstrip_last (s : str) (c : codepoint) :
  hd_error (rev (rstrip s)) = Some c -> isspace c = false.
Proof.
  induction s as [|d r IH]; [discriminate|].
  rewrite rstrip_cons.
  destruct (rstrip r) as [|x xs] eqn:Er.
  - destruct (isspace d) eqn:Ed; simpl; [discriminate|now intros [= <-]].
  - change (rev (d :: x :: xs)) with (rev (x :: xs) ++ [d]).
    destruct (rev (x :: xs)) as [|y ys] eqn:Erev.
    + apply (f_equal (@List.length _)) in Erev.
      rewrite length_rev in Erev. discriminate.
    + exact IH.
Qed.

Lemma strip_trimmed (s : str) : trimmed_of s (strip s).
Proof.
  destruct (lstrip_split s) as (pre & E1 & Hpre).
  destruct (rstrip_split (lstrip s)) as (post & E2 & Hpost).
  exists pre, post. unfold strip. repeat split; trivial.
  - now rewrite <- E2.
  - intros c. apply rstrip_head. intros d. apply lstrip_head.
  - intros c. apply rstrip_last.
Qed.

End TrimFacts.

(* ================================================================== *)
(** ** Results on the symbol normaliser *)
(* ================================================================== *)

(** C7.  The normaliser returns the part of its input before the first
    dot, without the white space around it: the value is [strip] of that
    part, and [strip] of a string is that string between two runs of white
    space, with none at either end.  "600519.SH", "600519.SZ" and "600519"
    all give "600519"; the empty string and an absent input give the empty
    string. *)
Theorem normalize_symbol_before_first_dot_trimmed :
  (forall s : str,
     _normalize_stock_symbol (Some s) = strip (before dot s) /\
     trimmed_of (before dot s) (_normalize_stock_symbol (Some s))) /\
  _normalize_stock_symbol (Some (py "600519.SH")) = py "600519" /\
  _normalize_stock_symbol (Some (py "600519.SZ")) = py "600519" /\
  _normalize_stock_symbol (Some (py "600519")) = py "600519" /\
  _normalize_stock_symbol (Some []) = [] /\
  _normalize_stock_symbol None = [].
Proof.
  split; [|repeat split; reflexivity].
  intros s. rewrite normalize_spec. split; [reflexivity|apply strip_trimmed].
Qed.

(* ================================================================== *)
(** ** Results on the sanitiser *)
(* ================================================================== *)

Section PyobjInduction.
Variable Q : pyobj -> Prop.
Hypothesis Hleaf : forall o, is_container o = false -> Q o.
Hypothesis Hlist : forall items, Forall Q items -> Q (PyList items).
Hypothesis Hdict :
  forall items, Forall (fun kv => Q (snd kv)) items -> Q (PyDict items).

Fixpoint pyobj_nested_ind (o : pyobj) : Q o :=
  match o with
  | PyList items =>
      Hlist
        ((fix all (l : list pyobj) : Forall Q l :=
            match l with
            | [] => Forall_nil _
            | x :: r => Forall_cons x (pyobj_nested_ind x) (all r)
            end) items)
  | PyDict items =>
      Hdict
        ((fix all (l : list (str * pyobj)) : Forall (fun kv => Q (snd kv)) l :=
            match l with
            | [] => Forall_nil _
            | kv :: r => Forall_cons kv (pyobj_nested_ind (snd kv)) (all r)
            end) items)
  | PyNone => Hleaf PyNone eq_refl
  | PyBool b => Hleaf (PyBool b) eq_refl
  | PyInt n => Hleaf (PyInt n) eq_refl
  | PyFloat f => Hleaf (PyFloat f) eq_refl
  | PyStr s => Hleaf (PyStr s) eq_refl
  | PyTimestamp t => Hleaf (PyTimestamp t) eq_refl
  | NpInteger n => Hleaf (NpInteger n) eq_refl
  | NpFloating f => Hleaf (NpFloating f) eq_refl
  | NpLongDouble x => Hleaf (NpLongDouble x) eq_refl
  | PyTuple items => Hleaf (PyTuple items) eq_refl
  | PyObject id => Hleaf (PyObject id) eq_refl
  end.

End PyobjInduction.

Section SanitizeFacts.

Lemma sanitize_float_spec (f : float) :
  sanitize_float f = if is_finite f then PyFloat f else PyNone.
Proof.
  unfold sanitize_float, is_finite.
  destruct (is_nan f), (is_infinity f); reflexivity.
Qed.

Lemma sanitize_float_plain (f : float) : plain (sanitize_float f) = true.
Proof.
  rewrite sanitize_float_spec.
  destruct (is_finite f) eqn:E; simpl; trivial.
Qed.

Lemma plain_finite (o : pyobj) :
  plain o = true -> within_reach o = true -> finite_throughout o = true.
Proof.
  induction o as [o Ho|items IH|items IH] using pyobj_nested_ind.
  - destruct o; simpl; trivial; discriminate.
  - simpl. rewrite !forallb_forall. rewrite Forall_forall in IH. auto.
  - simpl. rewrite !forallb_forall. rewrite Forall_forall in IH. auto.
Qed.

Lemma sanitize_plain (o : pyobj) : plain (_sanitize_for_json o) = true.
Proof.
  induction o as [o Ho|items IH|items IH] using pyobj_nested_ind.
  - destruct o; simpl; trivial; try apply sanitize_float_plain;
      discriminate.
  - simpl. rewrite forallb_forall. intros y Hy.
    apply in_map_iff in Hy as (x & <- & Hx).
    rewrite Forall_forall in IH. auto.
  - simpl. rewrite forallb_forall. intros y Hy.
    apply in_map_iff in Hy as (x & <- & Hx).
    rewrite Forall_forall in IH. simpl. auto.
Qed.

Lemma sanitize_float_within_reach (f : float) :
  within_reach (sanitize_float f) = true.
Proof.
  rewrite sanitize_float_spec. destruct (is_finite f); reflexivity.
Qed.

Lemma sanitize_within_reach (o : pyobj) :
  within_reach o = true -> within_reach (_sanitize_for_json o) = true.
Proof.
  induction o as [o Ho|items IH|items IH] using pyobj_nested_ind.
  - destruct o; simpl; trivial; try discriminate;
      intros _; apply sanitize_float_within_reach.
  - simpl. rewrite !forallb_forall. intros H y Hy.
    apply in_map_iff in Hy as (x & <- & Hx).
    rewrite Forall_forall in IH. auto.
  - simpl. rewrite !forallb_forall. intros H y Hy.
    apply in_map_iff in Hy as (x & <- & Hx).
    rewrite Forall_forall in IH. simpl. auto.
Qed.

Lemma plain_fixed (o : pyobj) : plain o = true -> _sanitize_for_json o = o.
Proof.
  induction o as [o Ho|items IH|items IH] using pyobj_nested_ind.
  - destruct o; simpl; trivial; try discriminate.
    intros E. now rewrite sanitize_float_spec, E.
  - simpl. intros H. f_equal.
    rewrite forallb_forall in H. rewrite Forall_forall in IH.
    rewrite <- (map_id items) at 2. apply map_ext_in. auto.
  - simpl. intros H. f_equal.
    rewrite forallb_forall in H. rewrite Forall_forall in IH.
    rewrite <- (map_id items) at 2. apply map_ext_in.
    intros [k v] Hkv. simpl. f_equal. apply (IH _ Hkv), (H _ Hkv).
Qed.

Lemma fixed_plain (o : pyobj) : _sanitize_for_json o = o -> plain o = true.
Proof. intros E. rewrite <- E. apply sanitize_plain. Qed.

End SanitizeFacts.

(** C6.  The sanitiser does not replace every float that is not finite.
    It unboxes a numpy scalar with [item()] and then tests
    [isinstance(obj, float)]; the [item()] of a [np.longdouble] is the
    [np.longdouble] again, which is no [float], so a [np.longdouble] that
    is not-a-number or an infinity comes back as it is, alone or inside a
    list; and a tuple is returned without a look at its items.  Apart
    from these two the sanitiser does what is asked of it: a Python float
    and any other [np.floating] that is not finite becomes [None] and a
    finite one is kept, a [np.integer] becomes its [int], a list is
    rebuilt from its sanitised items and a dict from its keys and
    sanitised values, in order; the result of an object that holds
    neither a [np.longdouble] nor a tuple holds no float that is not
    finite at any depth.  The objects the sanitiser leaves unchanged are
    exactly the [plain] ones, and sanitising twice is sanitising once,
    for every object. *)
Theorem sanitize_for_json_leaves_longdouble_and_tuple :
  _sanitize_for_json (NpLongDouble LongNaN) = NpLongDouble LongNaN /\
  (forall negative,
     _sanitize_for_json (NpLongDouble (LongInfinity negative))
     = NpLongDouble (LongInfinity negative)) /\
  _sanitize_for_json (PyList [NpLongDouble LongNaN])
    = PyList [NpLongDouble LongNaN] /\
  finite_throughout (_sanitize_for_json (PyList [NpLongDouble LongNaN]))
    = false /\
  _sanitize_for_json (PyTuple [PyFloat nan]) = PyTuple [PyFloat nan] /\
  finite_throughout (_sanitize_for_json (PyTuple [PyFloat nan])) = false /\
  (forall f, _sanitize_for_json (PyFloat f) =
             if is_finite f then PyFloat f else PyNone) /\
  (forall f, _sanitize_for_json (NpFloating f) =
             if is_finite f then PyFloat f else PyNone) /\
  _sanitize_for_json (PyFloat nan) = PyNone /\
  _sanitize_for_json (PyFloat infinity) = PyNone /\
  _sanitize_for_json (PyFloat neg_infinity) = PyNone /\
  (forall n, _sanitize_for_json (NpInteger n) = PyInt n) /\
  (forall items,
     _sanitize_for_json (PyList items) =
     PyList (map _sanitize_for_json items)) /\
  (forall items,
     _sanitize_for_json (PyDict items) =
     PyDict (map (fun kv => (fst kv, _sanitize_for_json (snd kv))) items)) /\
  (forall o, within_reach o = true ->
             finite_throughout (_sanitize_for_json o) = true) /\
  (forall o, _sanitize_for_json o = o <-> plain o = true) /\
  (forall o, _sanitize_for_json (_sanitize_for_json o) = _sanitize_for_json o).
Proof.
  repeat match goal with |- _ /\ _ => split end; try reflexivity.
  - intros f. apply sanitize_float_spec.
  - intros f. apply sanitize_float_spec.
  - intros o H. apply plain_finite;
      [apply sanitize_plain | apply sanitize_within_reach, H].
  - intros o. split; [apply fixed_plain | apply plain_fixed].
  - intros o. apply plain_fixed, sanitize_plain.
Qed.

(* ================================================================== *)
(** ** Decimal text of an integer *)
(* ================================================================== *)

Section DecimalFacts.
Context {U : UnicodeDB}.

Lemma digit_char_decimal (n : Z) : is_decimal_char (digit_char (n mod 10)).
Proof.
  unfold is_decimal_char, digit_char.
  pose proof (Z.mod_pos_bound n 10 ltac:(lia)). lia.
Qed.

Lemma decimal_value_digit_char (n : Z) :
  decimal_value (digit_char (n mod 10)) = Some (n mod 10)%Z.
Proof.
  pose proof (Z.mod_pos_bound n 10 ltac:(lia)) as B.
  unfold decimal_value, isascii, digit_char.
  replace (Z.to_N (48 + n mod 10) <? 128)%N with true
    by (symmetry; apply N.ltb_lt; lia).
  replace ((48 <=? Z.to_N (48 + n mod 10))%N) with true
    by (symmetry; apply N.leb_le; lia).
  replace ((Z.to_N (48 + n mod 10) <=? 57)%N) with true
    by (symmetry; apply N.leb_le; lia).
  cbn [andb]. f_equal. rewrite Z2N.id; lia.
Qed.

Lemma digits_fuel_acc (f : nat) :
  forall n acc, digits_fuel f n acc = digits_fuel f n [] ++ acc.
Proof.
  induction f as [|f IH]; intros n acc; simpl; trivial.
  destruct (n <? 10)%Z; trivial.
  rewrite (IH _ (_ :: acc)), (IH _ [_]), <- app_assoc. reflexivity.
Qed.

Lemma digits_fuel_decimal (f : nat) :
  forall n, Forall is_decimal_char (digits_fuel f n []).
Proof.
  induction f as [|f IH]; intros n; simpl; [constructor|].
  destruct (n <? 10)%Z.
  - constructor; [apply digit_char_decimal|constructor].
  - rewrite digits_fuel_acc. apply Forall_app. split; [apply IH|].
    constructor; [apply digit_char_decimal|constructor].
Qed.

Lemma digits_fuel_length (f : nat) :
  forall n, (1 <= List.length (digits_fuel (S f) n []) <= S f)%nat.
Proof.
  induction f as [|f IH]; intros n.
  - change (digits_fuel 1 n [])
      with (if (n <? 10)%Z then [digit_char (n mod 10)]
            else [digit_char (n mod 10)]).
    destruct (n <? 10)%Z; cbn [List.length]; lia.
  - change (digits_fuel (S (S f)) n [])
      with (if (n <? 10)%Z then [digit_char (n mod 10)]
            else digits_fuel (S f) (n / 10) [digit_char (n mod 10)]).
    destruct (n <? 10)%Z; [simpl; lia|].
    rewrite digits_fuel_acc, length_app. specialize (IH (n / 10)%Z).
    change (List.length [digit_char (n mod 10)]) with 1%nat. lia.
Qed.

Lemma int_acc_app (s t : str) :
  forall a,
    int_acc a (s ++ t) =
    match int_acc a s with
    | Some a' => int_acc a' t
    | None => None
    end.
Proof.
  induction s as [|c r IH]; intros a; simpl; trivial.
  destruct (decimal_value c); trivial.
Qed.

Lemma int_acc_digits (f : nat) :
  forall n, (0 <= n < 2 ^ Z.of_nat f)%Z ->
            int_acc 0 (digits_fuel f n []) = Some n.
Proof.
  induction f as [|f IH]; intros n Hn.
  - simpl in *. f_equal. lia.
  - simpl digits_fuel.
    destruct (Z.ltb_spec n 10) as [Hlt|Hge].
    + cbn [int_acc]. rewrite decimal_value_digit_char. f_equal.
      rewrite Z.mod_small; lia.
    + rewrite digits_fuel_acc, int_acc_app, IH.
      * cbn [int_acc]. rewrite decimal_value_digit_char. f_equal.
        pose proof (Z.div_mod n 10 ltac:(lia)). lia.
      * rewrite Nat2Z.inj_succ, Z.pow_succ_r in Hn by lia.
        split; [apply Z.div_pos; lia|].
        apply Z.div_lt_upper_bound; lia.
Qed.

Lemma str_of_int_nonneg (n : Z) :
  (0 <= n)%Z ->
  str_of_int n = digits_fuel (S (Z.to_nat (Z.log2 n))) n [].
Proof.
  intros H. unfold str_of_int.
  destruct (Z.ltb_spec n 0); [lia|reflexivity].
Qed.

Lemma str_of_int_decimal (n : Z) :
  (0 <= n)%Z -> Forall is_decimal_char (str_of_int n).
Proof. intros H. rewrite str_of_int_nonneg by trivial. apply digits_fuel_decimal. Qed.

Lemma str_of_int_length (n : Z) :
  convertible n -> (1 <= List.length (str_of_int n) <= 4300)%nat.
Proof.
  intros [H0 H1]. rewrite str_of_int_nonneg by trivial.
  pose proof (digits_fuel_length (Z.to_nat (Z.log2 n)) n) as L.
  assert (Z.log2 n < 4299)%Z.
  { destruct (Z.eq_dec n 0) as [->|]; [reflexivity|].
    apply Z.log2_lt_pow2; lia. }
  pose proof (Z.log2_nonneg n). lia.
Qed.

Lemma int_str_of_int (n : Z) : convertible n -> int_ (str_of_int n) = Ok n.
Proof.
  intros C. pose proof (str_of_int_length C) as L. destruct C as [H0 H1].
  unfold int_, int_max_str_digits.
  destruct (str_of_int n) as [|c r] eqn:E; [simpl in L; lia|].
  simpl is_empty. cbv iota.
  destruct (Nat.ltb_spec 4300 (List.length (c :: r))); [lia|].
  rewrite <- E, str_of_int_nonneg, int_acc_digits; trivial.
  split; trivial.
  destruct (Z.eq_dec n 0) as [->|]; [reflexivity|].
  pose proof (Z.log2_nonneg n).
  rewrite Nat2Z.inj_succ, Z2Nat.id by trivial.
  apply Z.log2_spec. lia.
Qed.

Lemma str_of_int_not_empty (n : Z) : (0 <= n)%Z -> str_of_int n <> [].
Proof.
  intros H E. rewrite str_of_int_nonneg in E by trivial.
  pose proof (digits_fuel_length (Z.to_nat (Z.log2 n)) n) as L.
  rewrite E in L. simpl in L. lia.
Qed.

Lemma int_acc_str_of_int (n : Z) :
  (0 <= n)%Z -> int_acc 0 (str_of_int n) = Some n.
Proof.
  intros H. rewrite str_of_int_nonneg, int_acc_digits; trivial.
  split; trivial.
  destruct (Z.eq_dec n 0) as [->|]; [reflexivity|].
  pose proof (Z.log2_nonneg n).
  rewrite Nat2Z.inj_succ, Z2Nat.id by trivial.
  apply Z.log2_spec. lia.
Qed.

(** [int] converts the text of a natural number back exactly when the
    text has at most 4300 digits. *)
Lemma int_str_of_int_limit (n : Z) :
  (0 <= n)%Z ->
  int_ (str_of_int n) =
  if within_digit_limit n then Ok n else Raise ValueError.
Proof.
  intros H. unfold int_, int_max_str_digits, within_digit_limit.
  replace (0 <=? n)%Z with true by (symmetry; now apply Z.leb_le).
  cbn [andb]. rewrite (int_acc_str_of_int H).
  pose proof (str_of_int_not_empty H) as Hne.
  destruct (str_of_int n) as [|c r]; [congruence|].
  change (is_empty (c :: r)) with false. cbv iota.
  destruct (Nat.ltb_spec 4300 (List.length (c :: r))),
           (Nat.leb_spec (List.length (c :: r)) 4300); trivial; lia.
Qed.

End DecimalFacts.

(* ================================================================== *)
(** ** Parsing an interval *)
(* ================================================================== *)

Section IntervalFacts.
Context {U : UnicodeDB}.
Import ExnMonad.

Lemma decimal_inert (c : codepoint) : is_decimal_char c -> inert c.
Proof.
  intros H.
  assert (c = 48 \/ c = 49 \/ c = 50 \/ c = 51 \/ c = 52 \/ c = 53 \/
          c = 54 \/ c = 55 \/ c = 56 \/ c = 57)%N as E
    by (unfold is_decimal_char in H; lia).
  repeat (destruct E as [->|E]); try subst c; repeat split; reflexivity.
Qed.

Lemma decimal_isdigit (c : codepoint) : is_decimal_char c -> isdigit_char c = true.
Proof.
  intros H. unfold is_decimal_char in H. unfold isdigit_char, isascii.
  replace (c <? 128)%N with true by (symmetry; apply N.ltb_lt; lia).
  apply andb_true_iff. split; apply N.leb_le; lia.
Qed.

Lemma lstrip_inert (s : str) : Forall inert s -> lstrip s = s.
Proof.
  destruct 1 as [|c r (H & _) _]; simpl; trivial. now rewrite H.
Qed.

Lemma rstrip_inert (s : str) : Forall inert s -> rstrip s = s.
Proof.
  induction 1 as [|c r (H & _) _ IH]; trivial.
  rewrite rstrip_cons, IH, H. now destruct r.
Qed.

Lemma strip_inert (s : str) : Forall inert s -> strip s = s.
Proof.
  intros H. unfold strip. rewrite lstrip_inert by trivial.
  now apply rstrip_inert.
Qed.

Lemma lower_inert (s : str) : Forall inert s -> lower s = s.
Proof.
  intros H. unfold lower.
  replace (forallb isascii s) with true.
  - induction H as [|c r (_ & _ & Hc) _ IH]; simpl; [trivial|now rewrite Hc, IH].
  - symmetry. apply forallb_forall. rewrite Forall_forall in H.
    intros x Hx. apply (H x Hx).
Qed.

Lemma isdigit_decimal (s : str) :
  s <> [] -> Forall is_decimal_char s -> isdigit s = true.
Proof.
  intros Hne H. unfold isdigit.
  destruct s as [|c0 r]; [congruence|]. simpl is_empty. cbn [negb andb].
  apply forallb_forall. rewrite Forall_forall in H.
  intros x Hx. now apply decimal_isdigit, H.
Qed.

Lemma isdigit_app_other (s : str) (u : codepoint) :
  isdigit_char u = false -> isdigit (s ++ [u]) = false.
Proof.
  intros H. unfold isdigit. rewrite forallb_app. simpl. rewrite H.
  now rewrite andb_false_r, andb_false_r.
Qed.

Lemma str_of_int_inert (n : Z) : (0 <= n)%Z -> Forall inert (str_of_int n).
Proof.
  intros H. eapply Forall_impl; [apply decimal_inert|].
  now apply str_of_int_decimal.
Qed.

Lemma str_of_int_isdigit (n : Z) : convertible n -> isdigit (str_of_int n) = true.
Proof.
  intros C. pose proof (str_of_int_length C) as L.
  apply isdigit_decimal.
  - intros E. rewrite E in L. simpl in L. lia.
  - apply str_of_int_decimal, C.
Qed.

Lemma parse_number (n default_days : Z) :
  convertible n ->
  _parse_interval_to_days (IntervalStr (str_of_int n)) default_days =
  Ok (Z.max 1 n).
Proof.
  intros C. unfold _parse_interval_to_days.
  rewrite strip_inert, lower_inert by (apply str_of_int_inert, C).
  rewrite (str_of_int_isdigit C), (int_str_of_int C).
  pose proof (str_of_int_length C) as L.
  destruct (str_of_int n); [simpl in L; lia|reflexivity].
Qed.

Lemma parse_number_unit (n default_days : Z) (u : codepoint) :
  convertible n -> inert u -> isdigit_char u = false ->
  _parse_interval_to_days (IntervalStr (str_of_int n ++ [u])) default_days =
  Ok (days_of_unit u n default_days).
Proof.
  intros C Hu Hd. unfold _parse_interval_to_days.
  assert (Forall inert (str_of_int n ++ [u])) as Hs.
  { apply Forall_app. split; [apply str_of_int_inert, C|now constructor]. }
  rewrite strip_inert, lower_inert by exact Hs.
  rewrite isdigit_app_other by exact Hd.
  rewrite last_last, removelast_last.
  rewrite (str_of_int_isdigit C), (int_str_of_int C).
  destruct (str_of_int n ++ [u]) eqn:E; [now destruct (str_of_int n)|].
  unfold days_of_unit. simpl.
  destruct (N.eqb u unit_d); trivial.
  destruct (N.eqb u unit_m); trivial.
  destruct (N.eqb u unit_y); trivial.
Qed.

Lemma str_of_int_isdigit_nonneg (n : Z) :
  (0 <= n)%Z -> isdigit (str_of_int n) = true.
Proof.
  intros H. apply isdigit_decimal.
  - now apply str_of_int_not_empty.
  - now apply str_of_int_decimal.
Qed.

(** The text of a natural number is read as that number when it has at
    most 4300 digits, and as malformed otherwise. *)
Lemma parse_number_limit (n default_days : Z) :
  (0 <= n)%Z ->
  _parse_interval_to_days (IntervalStr (str_of_int n)) default_days =
  Ok (if within_digit_limit n then Z.max 1 n else default_days).
Proof.
  intros H. unfold _parse_interval_to_days.
  rewrite strip_inert, lower_inert by (now apply str_of_int_inert).
  rewrite (str_of_int_isdigit_nonneg H), (int_str_of_int_limit H).
  pose proof (str_of_int_not_empty H) as Hne.
  destruct (within_digit_limit n);
    (destruct (str_of_int n); [congruence|reflexivity]).
Qed.

Lemma parse_number_unit_limit (n default_days : Z) (u : codepoint) :
  (0 <= n)%Z -> inert u -> isdigit_char u = false ->
  _parse_interval_to_days (IntervalStr (str_of_int n ++ [u])) default_days =
  Ok (if within_digit_limit n then days_of_unit u n default_days
      else default_days).
Proof.
  intros H Hu Hd. unfold _parse_interval_to_days.
  assert (Forall inert (str_of_int n ++ [u])) as Hs.
  { apply Forall_app. split; [now apply str_of_int_inert|now constructor]. }
  rewrite strip_inert, lower_inert by exact Hs.
  rewrite isdigit_app_other by exact Hd.
  rewrite last_last, removelast_last.
  rewrite (str_of_int_isdigit_nonneg H), (int_str_of_int_limit H).
  destruct (within_digit_limit n);
    (destruct (str_of_int n ++ [u]) eqn:E; [now destruct (str_of_int n)|]);
    [|reflexivity].
  unfold days_of_unit. simpl.
  destruct (N.eqb u unit_d); trivial.
  destruct (N.eqb u unit_m); trivial.
  destruct (N.eqb u unit_y); trivial.
Qed.

Ltac returns_days :=
  eexists; split; [reflexivity|first [left; reflexivity|right; lia]].

(** The parser always returns, and returns the default or at least 1. *)
Lemma parse_total (i : IntervalType) (default_days : Z) :
  exists d, _parse_interval_to_days i default_days = Ok d /\
            (d = default_days \/ 1 <= d)%Z.
Proof.
  destruct i as [|n|s0]; simpl; try returns_days.
  destruct (is_empty (lower (strip s0))); [returns_days|].
  destruct (isdigit (lower (strip s0))).
  - destruct (int_ (lower (strip s0))); simpl; returns_days.
  - destruct (isdigit (removelast (lower (strip s0)))); [|simpl; returns_days].
    destruct (int_ (removelast (lower (strip s0)))); simpl; [|returns_days].
    destruct (N.eqb _ unit_d); [returns_days|].
    destruct (N.eqb _ unit_m); [returns_days|].
    destruct (N.eqb _ unit_y); returns_days.
Qed.

End IntervalFacts.

(* ================================================================== *)
(** ** Results on the interval resolver *)
(* ================================================================== *)

Section DateRangeFacts.
Context {U : UnicodeDB} {P : Pandas}.
Local Open Scope Z_scope.

Lemma calc_date_range_run (i : IntervalType) (e : env) (tr : list event) :
  exists d,
    _parse_interval_to_days i 365 = Ok d /\ (1 <= d)%Z /\
    _calc_date_range i e tr =
      (match timedelta d with
       | Ok delta =>
           match datetime_sub (today e) delta with
           | Ok first_day =>
               Ok (strftime_Ymd first_day, strftime_Ymd (today e),
                   str_of_int d ++ py "d")
           | Raise x => Raise x
           end
       | Raise x => Raise x
       end, tr).
Proof.
  destruct (parse_total i 365) as (d & E & Hd).
  exists d. repeat split; trivial; [lia|].
  unfold _calc_date_range, bindM, lift, datetime_now, ret. rewrite E.
  destruct (timedelta d); trivial.
  destruct (datetime_sub (today e) a); trivial.
Qed.

Lemma calc_date_range_days (i : IntervalType) (e : env) (d : Z) :
  _parse_interval_to_days i 365 = Ok d ->
  clock_in_range e -> (1 <= d < today e)%Z ->
  resolves_to i e d.
Proof.
  intros E [C0 C1] Hd tr.
  unfold min_ordinal, max_ordinal in *.
  exists (strftime_Ymd (today e - d)), (strftime_Ymd (today e)).
  repeat split; [|simpl; lia].
  destruct (calc_date_range_run i e tr) as (d' & E' & _ & ->).
  rewrite E in E'. injection E' as <-.
  unfold timedelta, max_delta_days.
  destruct (Z.ltb_spec 999999999 (Z.abs d)); [lia|].
  unfold datetime_sub, min_ordinal, max_ordinal.
  destruct (Z.leb_spec 1 (today e - d)); [|lia].
  destruct (Z.leb_spec (today e - d) 3652059); [|lia].
  reflexivity.
Qed.

(** A range that is returned starts before it ends; nothing but
    [OverflowError] is ever raised. *)
Lemma calc_date_range_outcome (i : IntervalType) (e : env) (tr : list event) :
  match fst (_calc_date_range i e tr) with
  | Ok (first_day, last_day, _) => day first_day < day last_day
  | Raise x => x = OverflowError
  end.
Proof.
  destruct (calc_date_range_run i e tr) as (d & _ & Hd & ->).
  unfold timedelta. destruct (_ <? _); simpl; trivial.
  unfold datetime_sub, min_ordinal.
  destruct (Z.leb_spec 1 (today e - d)); simpl; trivial.
  destruct (_ <=? _); simpl; trivial. lia.
Qed.

(** A window that reaches back to before year 1 makes the resolver
    raise. *)
Lemma calc_date_range_overflow (i : IntervalType) (e : env) (d : Z)
      (tr : list event) :
  _parse_interval_to_days i 365 = Ok d ->
  today e <= d ->
  _calc_date_range i e tr = (Raise OverflowError, tr).
Proof.
  intros E Hd.
  destruct (calc_date_range_run i e tr) as (d' & E' & _ & ->).
  rewrite E in E'. injection E' as <-.
  unfold timedelta. destruct (_ <? _); trivial.
  unfold datetime_sub, min_ordinal.
  destruct (Z.leb_spec 1 (today e - d)); [lia|reflexivity].
Qed.

Lemma small_convertible (n : Z) : (0 <= n <= max_ordinal)%Z -> convertible n.
Proof.
  unfold max_ordinal, convertible. intros H. split; [lia|].
  apply Z.le_lt_trans with (2 ^ 22)%Z; [lia|].
  apply Z.pow_lt_mono_r; lia.
Qed.

End DateRangeFacts.

Section IntervalResults.
Context {U : UnicodeDB} {P : Pandas}.
Local Open Scope Z_scope.

Lemma unit_letters_inert :
  (inert unit_d /\ isdigit_char unit_d = false) /\
  (inert unit_m /\ isdigit_char unit_m = false) /\
  (inert unit_y /\ isdigit_char unit_y = false).
Proof. repeat split; reflexivity. Qed.

(** C3, within the calendar.  Let the clock show a day [datetime] can
    hold and let n be positive.  If n days back from today is still a
    day of the calendar (n is less than today's ordinal), then the
    integer n, the text of n and that text followed by "d" each resolve
    to a range of n days; the text followed by "m" resolves to 30 n days
    and followed by "y" to 365 n days, under the same condition on 30 n
    and 365 n.  So "6m" gives 180 days and "1y" gives 365, and "0d" gives
    1 day.  Every such range ends today, starts that many days earlier,
    and is named by its day count followed by "d". *)
Theorem resolve_interval_within_calendar (e : env) (n : Z) :
  clock_in_range e -> 0 < n ->
  (n < today e ->
     resolves_to (IntervalInt n) e n /\
     resolves_to (IntervalStr (str_of_int n)) e n /\
     resolves_to (IntervalStr (str_of_int n ++ py "d")) e n) /\
  (30 * n < today e ->
     resolves_to (IntervalStr (str_of_int n ++ py "m")) e (30 * n)) /\
  (365 * n < today e ->
     resolves_to (IntervalStr (str_of_int n ++ py "y")) e (365 * n)) /\
  (180 < today e -> resolves_to (IntervalStr (py "6m")) e 180) /\
  (365 < today e -> resolves_to (IntervalStr (py "1y")) e 365) /\
  (1 < today e -> resolves_to (IntervalStr (py "0d")) e 1).
Proof.
  intros Hc Hn.
  destruct unit_letters_inert as ((Id & Dd) & (Im & Dm) & (Iy & Dy)).
  assert (forall k, 0 < k < today e -> convertible k) as Conv.
  { intros k Hk. apply small_convertible. unfold clock_in_range in Hc. lia. }
  repeat match goal with |- _ /\ _ => split end; intros H;
    repeat match goal with |- _ /\ _ => split end.
  - apply calc_date_range_days; trivial; [|lia].
    simpl. f_equal. lia.
  - apply calc_date_range_days; trivial; [|lia].
    rewrite parse_number by (apply Conv; lia). f_equal. lia.
  - apply calc_date_range_days; trivial; [|lia].
    change (py "d") with [unit_d].
    rewrite (parse_number_unit 365 (Conv n ltac:(lia)) Id Dd).
    change (days_of_unit unit_d n 365) with (Z.max 1 n). f_equal. lia.
  - apply calc_date_range_days; trivial; [|lia].
    change (py "m") with [unit_m].
    rewrite (parse_number_unit 365 (Conv n ltac:(lia)) Im Dm).
    change (days_of_unit unit_m n 365) with (Z.max 1 (n * 30)). f_equal. lia.
  - apply calc_date_range_days; trivial; [|lia].
    change (py "y") with [unit_y].
    rewrite (parse_number_unit 365 (Conv n ltac:(lia)) Iy Dy).
    change (days_of_unit unit_y n 365) with (Z.max 1 (n * 365)). f_equal. lia.
  - apply calc_date_range_days; trivial; lia.
  - apply calc_date_range_days; trivial; lia.
  - apply calc_date_range_days; trivial; lia.
Qed.

(** C4, where it holds and where it fails.  The parser of the day count
    always returns, with at least 1 day; an absent, an empty and a
    malformed interval ("3oy") give 365 days.  The range computed from the
    day count either is returned, and then starts before it ends, or the
    date arithmetic raises [OverflowError], which nothing catches: on 3
    November 2026 the interval "1000000d" makes [_calc_date_range] and
    with it [get_stock_data_with_features] raise. *)
Theorem interval_resolution_raises_beyond_calendar :
  (forall i : IntervalType,
     exists d, _parse_interval_to_days i 365 = Ok d /\ 1 <= d) /\
  _parse_interval_to_days IntervalNone 365 = Ok 365 /\
  _parse_interval_to_days (IntervalStr []) 365 = Ok 365 /\
  _parse_interval_to_days (IntervalStr (py "3oy")) 365 = Ok 365 /\
  (forall i e tr,
     match fst (_calc_date_range i e tr) with
     | Ok (first_day, last_day, _) => day first_day < day last_day
     | Raise x => x = OverflowError
     end) /\
  @_calc_date_range Sample.latin1 Sample.frames
     (IntervalStr (py "1000000d")) Sample.world [] = (Raise OverflowError, []) /\
  @get_stock_data_with_features Sample.latin1 Sample.frames
     (Some (py "600519")) (IntervalStr (py "1000000d")) Sample.world [] =
     (Raise OverflowError, []).
Proof.
  repeat split; try reflexivity.
  - intros i. destruct (parse_total i 365) as (d & E & Hd).
    exists d. split; [exact E|lia].
  - apply calc_date_range_outcome.
Qed.

End IntervalResults.

(** C3 read for every positive n fails: on 3 November 2026 the day count
    of 1000000 (an integer, or the text "1000000d") is parsed as 1000000
    days, and no range comes back, because the first day would lie before
    year 1. *)
Lemma resolve_interval_long_window_fails :
  @clock_in_range Sample.frames Sample.world /\
  (0 < 1000000)%Z /\
  @_parse_interval_to_days Sample.latin1 (IntervalInt 1000000) 365 =
    Ok 1000000%Z /\
  @_parse_interval_to_days Sample.latin1 (IntervalStr (py "1000000d")) 365 =
    Ok 1000000%Z /\
  ~ @resolves_to Sample.latin1 Sample.frames
      (IntervalInt 1000000) Sample.world 1000000 /\
  ~ @resolves_to Sample.latin1 Sample.frames
      (IntervalStr (py "1000000d")) Sample.world 1000000.
Proof.
  repeat split; try (vm_compute; congruence).
  - intros H. destruct (H []) as (a & b & E & _). vm_compute in E. discriminate.
  - intros H. destruct (H []) as (a & b & E & _). vm_compute in E. discriminate.
Qed.

(** C3 on sample data: on 3 November 2026 the interval "30d" resolves to a
    range of 30 days. *)
Lemma resolve_interval_30d :
  @clock_in_range Sample.frames Sample.world /\ (0 < 30)%Z /\
  @resolves_to Sample.latin1 Sample.frames
    (IntervalStr (py "30d")) Sample.world 30.
Proof.
  assert (@clock_in_range Sample.frames Sample.world) as Hc
    by (vm_compute; split; congruence).
  assert (0 < 30)%Z as Hn by lia.
  split; [exact Hc|]. split; [exact Hn|].
  destruct (@resolve_interval_within_calendar Sample.latin1 Sample.frames
              Sample.world 30 Hc Hn) as (H & _).
  destruct H as (_ & _ & H); [vm_compute; reflexivity|]. exact H.
Defined.

(* ================================================================== *)
(** ** Sorting by date *)
(* ================================================================== *)

Section SortFacts.
Variable A : Type.
Local Open Scope Z_scope.

Let by_date (x y : Z * A) : Prop := fst x <= fst y.

Lemma insert_by_date_Forall (Q : Z * A -> Prop) (x : Z * A) (l : list (Z * A)) :
  Q x -> Forall Q l -> Forall Q (insert_by_date x l).
Proof.
  intros Hx H. induction H as [|y l' Hy H IH]; simpl.
  - now constructor.
  - destruct (fst x <=? fst y); repeat constructor; trivial.
Qed.

Lemma insert_by_date_sorted (x : Z * A) (l : list (Z * A)) :
  StronglySorted by_date l -> StronglySorted by_date (insert_by_date x l).
Proof.
  induction 1 as [|y l' Hs IH Hy]; simpl.
  - repeat constructor.
  - destruct (Z.leb_spec (fst x) (fst y)) as [Hle|Hlt].
    + constructor; [now constructor|].
      constructor; [exact Hle|].
      eapply Forall_impl; [|exact Hy]. unfold by_date. intros z Hz. lia.
    + constructor; [exact IH|].
      apply insert_by_date_Forall; [unfold by_date; lia|exact Hy].
Qed.

Lemma sort_index_sorted (l : list (Z * A)) :
  StronglySorted by_date (sort_index l).
Proof.
  induction l as [|x l IH]; simpl; [constructor|].
  now apply insert_by_date_sorted.
Qed.

Lemma insert_by_date_perm (x : Z * A) (l : list (Z * A)) :
  Permutation (insert_by_date x l) (x :: l).
Proof.
  induction l as [|y l IH]; simpl; [reflexivity|].
  destruct (fst x <=? fst y); [reflexivity|].
  rewrite IH. apply perm_swap.
Qed.

Lemma sort_index_perm (l : list (Z * A)) : Permutation (sort_index l) l.
Proof.
  induction l as [|x l IH]; simpl; [reflexivity|].
  rewrite insert_by_date_perm. now constructor.
Qed.

End SortFacts.

Section SortedLists.
Variables (A B : Type) (R : B -> B -> Prop) (f : A -> B).

Lemma StronglySorted_through_map (l : list A) :
  StronglySorted (fun a b => R (f a) (f b)) l -> StronglySorted R (map f l).
Proof.
  induction 1 as [|a l Hs IH Ha]; simpl; constructor; trivial.
  apply Forall_map. exact Ha.
Qed.

Lemma StronglySorted_filtered (p : B -> bool) (l : list B) :
  StronglySorted R l -> StronglySorted R (filter p l).
Proof.
  induction 1 as [|a l Hs IH Ha]; simpl; [constructor|].
  destruct (p a); trivial.
  constructor; trivial.
  rewrite Forall_forall in *. intros b Hb.
  apply filter_In in Hb as [Hb _]. auto.
Qed.

End SortedLists.

Section FilterPerm.
Variables (A : Type) (p : A -> bool).

Lemma Permutation_filtered (l l' : list A) :
  Permutation l l' -> Permutation (filter p l) (filter p l').
Proof.
  induction 1 as [|x l l' _ IH|x y l|l l' l'' _ IH1 _ IH2]; simpl.
  - reflexivity.
  - destruct (p x); [now constructor|exact IH].
  - destruct (p x), (p y); try reflexivity. apply perm_swap.
  - now transitivity (filter p l').
Qed.

Lemma forallb_perm (l l' : list A) :
  Permutation l l' -> forallb p l = forallb p l'.
Proof.
  induction 1 as [|x l l' _ IH|x y l|l l' l'' _ IH1 _ IH2]; simpl.
  - reflexivity.
  - now rewrite IH.
  - destruct (p x), (p y); reflexivity.
  - now rewrite IH1.
Qed.

End FilterPerm.

Section ColumnLists.
Variables (A B C : Type).

Lemma all_some_values (f : A -> option B) (d : B) (l : list A) :
  forall xs,
    all_some (map f l) = Some xs ->
    xs = map (fun a => match f a with Some x => x | None => d end) l.
Proof.
  induction l as [|a l IH]; simpl; intros xs H.
  - now injection H as <-.
  - destruct (f a) as [x|]; [|discriminate].
    destruct (all_some (map f l)) as [ys|]; [|discriminate].
    injection H as <-. f_equal. now apply IH.
Qed.

Lemma forallb_through_map (p : B -> bool) (g : A -> B) (l : list A) :
  forallb p (map g l) = forallb (fun a => p (g a)) l.
Proof. induction l as [|a l IH]; simpl; [reflexivity|now rewrite IH]. Qed.

Lemma combine_map_same (f : A -> B) (g : A -> C) (l : list A) :
  combine (map f l) (map g l) = map (fun x => (f x, g x)) l.
Proof. induction l as [|a l IH]; simpl; [reflexivity|now rewrite IH]. Qed.

Lemma combine_self_map (g : A -> C) (l : list A) :
  combine l (map g l) = map (fun x => (x, g x)) l.
Proof. induction l as [|a l IH]; simpl; [reflexivity|now rewrite IH]. Qed.

End ColumnLists.

(* ================================================================== *)
(** ** Column labels *)
(* ================================================================== *)

Section LabelFacts.

Lemma str_eqb_eq (a : str) : forall b, str_eqb a b = true -> a = b.
Proof.
  induction a as [|x a IH]; intros [|y b]; simpl; try discriminate; trivial.
  intros H. apply andb_true_iff in H as [Hx Hr].
  apply N.eqb_eq in Hx. subst y. f_equal. now apply IH.
Qed.

(** Whether a label is among the renamed columns that one key selects. *)
Lemma contains_selected_by_key (g : str -> str) (req k : str)
      (cols : list str) :
  existsb (str_eqb req) (map g (filter (str_eqb k) cols)) =
  contains cols k && str_eqb req (g k).
Proof.
  unfold contains. induction cols as [|c cols IH]; simpl; [reflexivity|].
  destruct (str_eqb k c) eqn:E; simpl; [|exact IH].
  apply str_eqb_eq in E. subst c. rewrite IH.
  destruct (str_eqb req (g k)), (existsb (str_eqb k) cols); reflexivity.
Qed.

Lemma contains_selected (g : str -> str) (req : str) (cols existing : list str) :
  contains
    (map g (flat_map (fun k => filter (str_eqb k) cols) existing)) req =
  existsb (fun k => contains cols k && str_eqb req (g k)) existing.
Proof.
  unfold contains at 1.
  induction existing as [|k ks IH]; simpl; [reflexivity|].
  now rewrite map_app, existsb_app, contains_selected_by_key, IH.
Qed.

(** The two column checks of the fetcher pass together exactly when each
    of the six labels is among the columns. *)
Lemma column_check (cols : list str) :
  let existing := filter (contains cols) (map fst rename_map) in
  let renamed :=
    map (rename rename_map)
        (flat_map (fun k => filter (str_eqb k) cols) existing) in
  forallb (contains cols) (map fst rename_map) =
  match existing with
  | [] => false
  | _ => forallb (contains renamed) required
  end.
Proof.
  intros existing renamed.
  assert (forallb (contains renamed) required =
          forallb (fun req =>
                     existsb (fun k => contains cols k &&
                                       str_eqb req (rename rename_map k))
                             existing) required) as ->.
  { unfold renamed, required. cbn [forallb].
    now rewrite !contains_selected. }
  subst existing. clear renamed.
  generalize (contains cols) as f. intros f.
  cbv [rename_map map fst filter].
  destruct (f Label.riqi) eqn:E1, (f Label.kaipan) eqn:E2,
    (f Label.zuigao) eqn:E3, (f Label.zuidi) eqn:E4,
    (f Label.shoupan) eqn:E5, (f Label.chengjiaoliang) eqn:E6;
    cbn [forallb existsb required];
    rewrite ?E1, ?E2, ?E3, ?E4, ?E5, ?E6; reflexivity.
Qed.

End LabelFacts.

(* ================================================================== *)
(** ** Facts about the fetcher and the indicator engine *)
(* ================================================================== *)

Section PipelineFacts.
Context {U : UnicodeDB} {P : Pandas}.
Import ExnMonad.
Local Open Scope Z_scope.

(** A numeric column, value by value. *)
Lemma to_numeric_column_values (label : str)
      (rows : list (Z * (str -> cell))) (col : list number) :
  to_numeric_column (column label rows) = Ok col ->
  col = map (fun dr => cast (int64_column label rows)
                            (value_of (snd dr label))) rows.
Proof.
  unfold to_numeric_column, column. rewrite map_map.
  destruct (all_some _) as [values|] eqn:E; [|discriminate].
  intros H. injection H as <-.
  apply (all_some_values _ (Float64 nan)) in E. subst values.
  rewrite forallb_through_map, map_map. reflexivity.
Qed.

(** The table of a frame on which the fetcher's last lines return: the
    dated rows in the order of their dates, each as its bar, without
    those whose close is missing. *)
Lemma standardise_table (df : RawFrame cell) (table : list bar) :
  standardise df = Ok table ->
  table =
  filter (fun b => negb (is_missing (Close b)))
         (map (bar_of_row (sort_index (dated_rows df)))
              (sort_index (dated_rows df))).
Proof.
  unfold standardise, dated_rows, bind.
  destruct (repeated (columns df) Label.riqi); [discriminate|].
  destruct (to_datetime _) as [dates|x]; [|discriminate].
  set (sorted := sort_index _).
  destruct (repeated (columns df) Label.kaipan); [discriminate|].
  destruct (to_numeric_column (column Label.kaipan sorted))
    as [open|] eqn:E1; [|discriminate].
  destruct (repeated (columns df) Label.zuigao); [discriminate|].
  destruct (to_numeric_column (column Label.zuigao sorted))
    as [high|] eqn:E2; [|discriminate].
  destruct (repeated (columns df) Label.zuidi); [discriminate|].
  destruct (to_numeric_column (column Label.zuidi sorted))
    as [low|] eqn:E3; [|discriminate].
  destruct (repeated (columns df) Label.shoupan); [discriminate|].
  destruct (to_numeric_column (column Label.shoupan sorted))
    as [close|] eqn:E4; [|discriminate].
  destruct (repeated (columns df) Label.chengjiaoliang); [discriminate|].
  destruct (to_numeric_column (column Label.chengjiaoliang sorted))
    as [volume|] eqn:E5; [|discriminate].
  apply to_numeric_column_values in E1, E2, E3, E4, E5.
  intros H. injection H as <-. subst open high low close volume.
  rewrite !combine_map_same, combine_self_map, map_map.
  reflexivity.
Qed.

Lemma standardise_sorted (df : RawFrame cell) (table : list bar) :
  standardise df = Ok table -> StronglySorted Z.le (map Date table).
Proof.
  intros H. rewrite (standardise_table _ H).
  apply StronglySorted_through_map, StronglySorted_filtered.
  rewrite <- (map_id (map _ (sort_index _))).
  apply StronglySorted_through_map with (f := fun b : bar => b).
  apply StronglySorted_through_map with
    (R := fun a b : bar => Date a <= Date b).
  simpl. apply sort_index_sorted.
Qed.

Lemma standardise_close (df : RawFrame cell) (table : list bar) :
  standardise df = Ok table ->
  Forall (fun b => is_missing (Close b) = false) table.
Proof.
  intros H. rewrite (standardise_table _ H).
  apply Forall_forall. intros b Hb.
  apply filter_In in Hb as [_ Hb]. now apply negb_true_iff.
Qed.

(** The bar of a row does not depend on the order of the rows around
    it. *)
Lemma bar_of_row_perm (rows rows' : list (Z * (str -> cell)))
      (dr : Z * (str -> cell)) :
  Permutation rows rows' -> bar_of_row rows dr = bar_of_row rows' dr.
Proof.
  intros Hp. unfold bar_of_row, int64_column.
  now rewrite !(forallb_perm _ Hp).
Qed.

(** The table holds exactly the bars of the rows that have a date and a
    close. *)
Lemma standardise_kept (df : RawFrame cell) (table : list bar) :
  standardise df = Ok table -> Permutation table (kept_bars df).
Proof.
  intros H. rewrite (standardise_table _ H). unfold kept_bars.
  apply Permutation_filtered.
  rewrite (map_ext _ _ (fun dr => bar_of_row_perm dr
                                    (sort_index_perm (dated_rows df)))).
  apply Permutation_map, sort_index_perm.
Qed.

(** The fetcher, outcome by outcome. *)
Lemma fetch_run (sc : option str) (sd ed : date_str) (e : env)
      (tr : list event) :
  let symbol := _normalize_stock_symbol sc in
  let call := ProviderCalled symbol (remove_dashes sd) (remove_dashes ed) in
  if is_empty symbol then
    fetch_china_stock_data sc sd ed e tr = (Ok [], tr)
  else
    match stock_zh_a_hist e symbol (remove_dashes sd) (remove_dashes ed) with
    | ProviderRaises =>
        fetch_china_stock_data sc sd ed e tr =
        (Ok [], tr ++ [call; Printed (AkShareError symbol sd ed)])
    | ProviderReturns None =>
        fetch_china_stock_data sc sd ed e tr = (Ok [], tr ++ [call])
    | ProviderReturns (Some df) =>
        if frame_empty df then
          fetch_china_stock_data sc sd ed e tr = (Ok [], tr ++ [call])
        else if has_six_columns df then
          fetch_china_stock_data sc sd ed e tr = (standardise df, tr ++ [call])
        else
          exists d,
            fetch_china_stock_data sc sd ed e tr =
            (Ok [], tr ++ [call; Printed d])
    end.
Proof.
  intros symbol call. unfold fetch_china_stock_data. fold symbol.
  destruct (is_empty symbol); [reflexivity|].
  unfold bindM, call_provider, print, ret, lift. cbv beta iota. fold call.
  destruct (stock_zh_a_hist e symbol (remove_dashes sd) (remove_dashes ed))
    as [|[df|]].
  - cbv beta iota. now rewrite <- app_assoc.
  - destruct (frame_empty df); [reflexivity|].
    unfold has_six_columns. rewrite (column_check (columns df)). cbv zeta.
    destruct (filter (contains (columns df)) (map fst rename_map))
      as [|k ks].
    + cbv beta iota. rewrite <- app_assoc. eexists. reflexivity.
    + destruct (forallb _ required); cbn [negb]; cbv beta iota.
      * reflexivity.
      * rewrite <- app_assoc. eexists. reflexivity.
  - reflexivity.
Qed.

(** A table the fetcher returns is the empty one or the table of the
    frame the provider returned; an exception of the fetcher is one of its
    last lines, on such a frame. *)
Lemma fetch_outcome (sc : option str) (sd ed : date_str) (e : env)
      (tr : list event) :
  match fst (fetch_china_stock_data sc sd ed e tr) with
  | Ok df => df = [] \/ exists frame, standardise frame = Ok df
  | Raise x =>
      exists frame,
        stock_zh_a_hist e (_normalize_stock_symbol sc)
          (remove_dashes sd) (remove_dashes ed) =
          ProviderReturns (Some frame) /\
        frame_empty frame = false /\
        has_six_columns frame = true /\
        standardise frame = Raise x
  end.
Proof.
  pose proof (fetch_run sc sd ed e tr) as H. cbv zeta in H.
  destruct (is_empty (_normalize_stock_symbol sc));
    [rewrite H; now left|].
  destruct (stock_zh_a_hist e _ _ _) as [|[df|]] eqn:Ep;
    try (rewrite H; now left).
  destruct (frame_empty df) eqn:Ef; [rewrite H; now left|].
  destruct (has_six_columns df) eqn:Es.
  - rewrite H. cbn [fst].
    destruct (standardise df) as [table|x] eqn:Et.
    + right. now exists df.
    + exists df. auto.
  - destruct H as (d & ->). now left.
Qed.

Lemma map_snd_combine_seq (A : Type) (l : list A) :
  forall start, map snd (combine (seq start (List.length l)) l) = l.
Proof.
  induction l as [|x l IH]; intros start; simpl; trivial.
  now rewrite IH.
Qed.

Lemma feature_engineering_dates (df : list bar) :
  map (fun r => Date (ohlcv r)) (feature_engineering df) = map Date df.
Proof.
  destruct df as [|b df]; trivial.
  set (l := b :: df).
  transitivity (map Date (map snd (combine (seq 0 (List.length l)) l)));
    [|now rewrite map_snd_combine_seq].
  unfold feature_engineering, l. rewrite !map_map. reflexivity.
Qed.

Lemma feature_engineering_length (df : list bar) :
  List.length (feature_engineering df) = List.length df.
Proof.
  rewrite <- (length_map (fun r => Date (ohlcv r))), feature_engineering_dates.
  apply length_map.
Qed.

Lemma sanitize_native (x : number) :
  _sanitize_for_json (native x) = sanitized_number x.
Proof. destruct x; reflexivity. Qed.

Lemma sanitize_records (l : list enriched) :
  _sanitize_for_json (to_dict_records l) = PyList (map sanitized_record l).
Proof.
  unfold to_dict_records. cbn [_sanitize_for_json]. rewrite map_map.
  f_equal. apply map_ext. intros r. unfold to_record, sanitized_record.
  cbn [_sanitize_for_json map fst snd].
  now rewrite !sanitize_native.
Qed.

End PipelineFacts.

(* ================================================================== *)
(** ** Which stock codes have an empty symbol *)
(* ================================================================== *)

Section EmptySymbol.

Lemma rstrip_nil (s : str) :
  rstrip s = [] -> s = [] \/ exists c r, s = c :: r /\ isspace c = true.
Proof.
  destruct s as [|c r]; [now left|].
  rewrite rstrip_cons. intros H. right. exists c, r. split; trivial.
  destruct (rstrip r); [|discriminate].
  now destruct (isspace c).
Qed.

Lemma strip_nil (s : str) : strip s = [] <-> lstrip s = [].
Proof.
  unfold strip. split; [|now intros ->].
  intros H. apply rstrip_nil in H as [H|(c & r & E & Hc)]; trivial.
  rewrite (@lstrip_head s c) in Hc; [discriminate|now rewrite E].
Qed.

Lemma lstrip_all_space (s : str) : forallb isspace s = true -> lstrip s = [].
Proof.
  induction s as [|c r IH]; simpl; trivial.
  destruct (isspace c); simpl; [exact IH|discriminate].
Qed.

(** The symbol of a string is empty exactly when the string, its leading
    white space apart, is empty or starts with a dot. *)
Lemma normalize_empty_iff (s : str) :
  _normalize_stock_symbol (Some s) = [] <->
  lstrip s = [] \/ exists r, lstrip s = dot :: r.
Proof.
  rewrite normalize_spec, strip_nil, <- before_lstrip.
  destruct (lstrip s) as [|c r]; simpl.
  - split; auto.
  - destruct (N.eqb_spec c dot) as [->|Hc]; split; eauto; try discriminate.
    intros [H|(r' & H)]; [discriminate|]. congruence.
Qed.

End EmptySymbol.

(* ================================================================== *)
(** ** Results on the pipeline *)
(* ================================================================== *)

Section PipelineResults.
Context {U : UnicodeDB} {P : Pandas}.
Local Open Scope Z_scope.

(** C10.  Normalising a normalised symbol changes nothing: the symbol
    holds no dot and no white space at either end.  So the fetcher, which
    normalises its argument again, does on the orchestrator's symbol
    exactly what it does on the stock code itself. *)
Theorem normalize_symbol_idempotent :
  forall stock_code : option str,
    let symbol := _normalize_stock_symbol stock_code in
    _normalize_stock_symbol (Some symbol) = symbol /\
    ~ In dot symbol /\
    strip symbol = symbol /\
    forall start_date end_date,
      fetch_china_stock_data (Some symbol) start_date end_date =
      fetch_china_stock_data stock_code start_date end_date.
Proof.
  intros sc symbol. unfold symbol. repeat split.
  - apply normalize_fixed.
  - apply normalize_no_dot.
  - apply normalize_stripped.
  - intros sd ed. unfold fetch_china_stock_data. now rewrite normalize_fixed.
Qed.

(** The orchestrator, outcome by outcome. *)
Lemma orchestrator_run
  (stock_code : option str) (interval : IntervalType) (e : env)
  (tr : list event) :
  get_stock_data_with_features stock_code interval e tr =
  match _calc_date_range interval e tr with
  | (Raise x, tr1) => (Raise x, tr1)
  | (Ok range, tr1) =>
      let symbol := _normalize_stock_symbol stock_code in
      if is_empty symbol then (Ok (empty_symbol_envelope stock_code range), tr1)
      else
        match fetch_china_stock_data (Some symbol)
                (fst (fst range)) (snd (fst range)) e tr1 with
        | (Raise x, tr2) => (Raise x, tr2)
        | (Ok [], tr2) => (Ok (no_data_envelope stock_code symbol range), tr2)
        | (Ok df, tr2) =>
            (Ok (success_envelope stock_code symbol range
                   (map sanitized_record (feature_engineering df))), tr2)
        end
  end.
Proof.
  unfold get_stock_data_with_features, bindM at 1.
  destruct (_calc_date_range interval e tr) as [[[[sd ed] nm]|x] tr1]; trivial.
  cbv zeta.
  destruct (is_empty (_normalize_stock_symbol stock_code)); [reflexivity|].
  unfold bindM at 1. cbn [fst snd].
  destruct (fetch_china_stock_data _ sd ed e tr1) as [[[|b df]|x] tr2];
    try reflexivity.
  rewrite sanitize_records. reflexivity.
Qed.

(** C1.  Whatever the stock code, the interval, the clock, the provider
    and the trace so far: if the call returns an envelope, its data is a
    list, [meta.rows] is the length of that list, and [success] is true
    exactly when the list is not empty; so a failure carries no data and a
    success carries some.  The call returns unless the date arithmetic of
    the interval resolver raised [OverflowError] or, the interval
    resolved, the fetcher raised. *)
Theorem envelope_rows_match_data
  (stock_code : option str) (interval : IntervalType) (e : env)
  (tr : list event) :
  match fst (get_stock_data_with_features stock_code interval e tr) with
  | Ok r =>
      exists records,
        data r = PyList records /\
        rows (meta_ r) = Z.of_nat (List.length records) /\
        success r = match records with [] => false | _ => true end
  | Raise x =>
      (x = OverflowError /\
       fst (_calc_date_range interval e tr) = Raise OverflowError) \/
      exists range tr1,
        _calc_date_range interval e tr = (Ok range, tr1) /\
        fst (fetch_china_stock_data
               (Some (_normalize_stock_symbol stock_code))
               (fst (fst range)) (snd (fst range)) e tr1) = Raise x
  end.
Proof.
  rewrite orchestrator_run.
  pose proof (calc_date_range_outcome interval e tr) as Hr.
  destruct (_calc_date_range interval e tr) as [[range|x] tr1]; simpl in Hr.
  2: { left. subst x. now split. }
  cbv zeta.
  destruct (is_empty (_normalize_stock_symbol stock_code)).
  { exists []. now repeat split. }
  destruct (fetch_china_stock_data _ _ _ e tr1) as [[df|x] tr2] eqn:Ef.
  - destruct df as [|b df]; [exists []; now repeat split|].
    pose proof (feature_engineering_length (b :: df)) as L.
    destruct (feature_engineering (b :: df)) as [|r rs]; [discriminate|].
    eexists. repeat split.
  - right. exists range, tr1. split; [reflexivity|]. now rewrite Ef.
Qed.

Lemma calc_date_range_trace (i : IntervalType) (e : env) (tr : list event) :
  snd (_calc_date_range i e tr) = tr.
Proof. now destruct (calc_date_range_run i e tr) as (d & _ & _ & ->). Qed.

(** C2.  A stock code that is absent, empty, white space only, or that
    starts with a dot has an empty symbol.  For every stock code with an
    empty symbol the call returns the failure envelope ([success] false,
    the message "Error: stock_code cannot be empty.", an empty symbol,
    [rows] 0 and no data) and leaves the trace as it found it, so the
    provider was not called, provided the interval resolver returned: the
    orchestrator resolves the interval before it looks at the symbol, and
    when the resolver raises, the call raises the same exception and no
    envelope comes back.  So it is for the empty stock code with the
    interval "1000000d" on 3 November 2026: [OverflowError]. *)
Theorem empty_symbol_fails_unless_resolver_raises :
  (_normalize_stock_symbol None = [] /\
   _normalize_stock_symbol (Some []) = [] /\
   (forall s, forallb isspace s = true -> _normalize_stock_symbol (Some s) = []) /\
   (forall s, _normalize_stock_symbol (Some (dot :: s)) = [])) /\
  (forall (stock_code : option str) (interval : IntervalType) (e : env)
          (tr : list event),
     _normalize_stock_symbol stock_code = [] ->
     match fst (_calc_date_range interval e tr) with
     | Ok (first_day, last_day, name) =>
         exists r,
           get_stock_data_with_features stock_code interval e tr = (Ok r, tr) /\
           success r = false /\
           message r = py "Error: stock_code cannot be empty." /\
           meta_ r = {| stock_code := stock_code; symbol := [];
                        start_date := first_day; end_date := last_day;
                        interval := name; rows := 0 |} /\
           data r = PyList []
     | Raise x =>
         get_stock_data_with_features stock_code interval e tr = (Raise x, tr)
     end) /\
  @get_stock_data_with_features Sample.latin1 Sample.frames
    (Some []) (IntervalStr (py "1000000d")) Sample.world [] =
  (Raise OverflowError, []).
Proof.
  split; [|split].
  - repeat split; trivial.
    + intros s Hs. apply normalize_empty_iff. left. now apply lstrip_all_space.
    + intros s. apply normalize_empty_iff. right. now exists s.
  - intros sc i e tr E. rewrite orchestrator_run.
    pose proof (calc_date_range_trace i e tr) as Htr.
    destruct (_calc_date_range i e tr) as [[[[sd ed] nm]|x] tr1];
      simpl in Htr; subst tr1; [|reflexivity].
    cbv zeta. rewrite E. simpl.
    eexists. split; [reflexivity|]. now repeat split.
  - vm_compute. reflexivity.
Qed.

(** C8, as the fetcher has it.  When the fetcher returns a table, its
    dates never decrease from one row to the next and no row has a missing
    (not-a-number) [Close].  The table is empty when the symbol is empty
    or the provider raised, returned nothing, an empty frame or a frame
    that lacks one of the six columns; otherwise it holds exactly the bars
    of the rows of the frame that have a parseable date and a close that
    is not missing, each such row once: rows of equal date are all kept,
    and so is a row whose close is infinite.  Later stages drop nothing:
    the enriched table has the same dates in the same order, and the
    sanitised records are as many as the rows.  When the fetcher raises,
    it is on a frame with the six columns, and the exception is that of
    its last lines. *)
Theorem fetched_table_sorted_with_close
  (stock_code : option str) (start_date end_date : date_str) (e : env)
  (tr : list event) :
  match fst (fetch_china_stock_data stock_code start_date end_date e tr) with
  | Ok df =>
      StronglySorted Z.le (map Date df) /\
      Forall (fun b => is_missing (Close b) = false) df /\
      (if is_empty (_normalize_stock_symbol stock_code) then df = []
       else
         match stock_zh_a_hist e (_normalize_stock_symbol stock_code)
                 (remove_dashes start_date) (remove_dashes end_date) with
         | ProviderReturns (Some frame) =>
             if negb (frame_empty frame) && has_six_columns frame
             then Permutation df (kept_bars frame)
             else df = []
         | _ => df = []
         end) /\
      map (fun r => Date (ohlcv r)) (feature_engineering df) = map Date df /\
      exists records,
        _sanitize_for_json (to_dict_records (feature_engineering df)) =
          PyList records /\
        List.length records = List.length df
  | Raise x =>
      exists frame,
        stock_zh_a_hist e (_normalize_stock_symbol stock_code)
          (remove_dashes start_date) (remove_dashes end_date) =
          ProviderReturns (Some frame) /\
        has_six_columns frame = true /\
        standardise frame = Raise x
  end.
Proof.
  pose proof (fetch_outcome stock_code start_date end_date e tr) as Ho.
  pose proof (fetch_run stock_code start_date end_date e tr) as Hr.
  cbv zeta in Hr.
  destruct (fst (fetch_china_stock_data stock_code start_date end_date e tr))
    as [df|x] eqn:E.
  2: { destruct Ho as (frame & Hp & _ & Hs & Hx). now exists frame. }
  repeat match goal with |- _ /\ _ => split end.
  - destruct Ho as [->|(frame & Hf)]; [constructor|].
    exact (standardise_sorted _ Hf).
  - destruct Ho as [->|(frame & Hf)]; [constructor|].
    exact (standardise_close _ Hf).
  - destruct (is_empty (_normalize_stock_symbol stock_code)).
    { rewrite Hr in E. now injection E. }
    destruct (stock_zh_a_hist e _ _ _) as [|[frame|]];
      try (rewrite Hr in E; now injection E).
    destruct (frame_empty frame); cbn [negb andb].
    { rewrite Hr in E. now injection E. }
    destruct (has_six_columns frame).
    + rewrite Hr in E. cbn [fst] in E. exact (standardise_kept _ E).
    + destruct Hr as (d & Hr). rewrite Hr in E. now injection E.
  - apply feature_engineering_dates.
  - eexists. split; [apply sanitize_records|].
    rewrite length_map. apply feature_engineering_length.
Qed.

(** C9.  A sanitised record lists its keys in the order Date, Open, High,
    Low, Close, Volume, MA_10, MA_50, Daily_Return, Volatility_20d, RSI;
    a value of an [int64] column is in it as an [int], a value of a float
    column as a finite [float] or [None].  In every success envelope the
    data is the list of the sanitised records of the rows of the enriched
    table, one per row and in the order of the table, the table being the
    enrichment of what the fetcher returned; a failure envelope has no
    data.  But under "Date" a record holds the [Timestamp] of its row,
    which is no string, where the docstring of the orchestrator shows a
    string: so it is in the success envelope for the stock code
    "600519.SH" and the sample provider. *)
Theorem success_data_one_record_per_row :
  (forall r : enriched,
     keys (sanitized_record r) = column_order /\
     get (sanitized_record r) (py "Date") =
       Some (PyTimestamp (Date (ohlcv r))) /\
     is_str (PyTimestamp (Date (ohlcv r))) = false) /\
  (forall (stock_code : option str) (interval : IntervalType) (e : env)
          (tr : list event),
     match fst (get_stock_data_with_features stock_code interval e tr) with
     | Ok r =>
         if success r then
           exists range tr1 df tr2,
             _calc_date_range interval e tr = (Ok range, tr1) /\
             fetch_china_stock_data
               (Some (_normalize_stock_symbol stock_code))
               (fst (fst range)) (snd (fst range)) e tr1 = (Ok df, tr2) /\
             data r = PyList (map sanitized_record (feature_engineering df)) /\
             List.length (feature_engineering df) = List.length df
         else data r = PyList []
     | Raise _ => True
     end) /\
  exists r tr' record rest,
    @get_stock_data_with_features Sample.latin1 Sample.frames
      (Some (py "600519.SH")) (IntervalStr (py "30d")) Sample.world [] =
      (Ok r, tr') /\
    success r = true /\
    data r = PyList (record :: rest) /\
    get record (py "Date") = Some (PyTimestamp 20240102) /\
    get record (py "Volume") = Some (PyInt 1000).
Proof.
  split; [intros r; repeat split; reflexivity|]. split.
  - intros sc i e tr. rewrite orchestrator_run.
    destruct (_calc_date_range i e tr) as [[range|x] tr1]; [|exact I].
    cbv zeta.
    destruct (is_empty (_normalize_stock_symbol sc)); [reflexivity|].
    destruct (fetch_china_stock_data _ _ _ e tr1) as [[[|b df]|x] tr2] eqn:E;
      [reflexivity| |exact I].
    simpl. exists range, tr1, (b :: df), tr2.
    repeat split; trivial. apply feature_engineering_length.
  - eexists _, _, _, _. split; [vm_compute; reflexivity|].
    repeat split; reflexivity.
Qed.

End PipelineResults.

(* ================================================================== *)
(** ** The results on sample data *)
(* ================================================================== *)

Section SampleRuns.
Local Open Scope Z_scope.

(** The stock code " .SH" on 3 November 2026 with the interval "30d": the
    failure envelope, and no call of the provider. *)
Lemma empty_symbol_fails_unless_resolver_raises_sample :
  _normalize_stock_symbol (Some (py " .SH")) = [] /\
  exists r,
    @get_stock_data_with_features Sample.latin1 Sample.frames
      (Some (py " .SH")) (IntervalStr (py "30d")) Sample.world [] = (Ok r, []) /\
    success r = false /\
    message r = py "Error: stock_code cannot be empty." /\
    meta_ r = {| stock_code := Some (py " .SH"); symbol := [];
                 start_date := strftime_Ymd 739893;
                 end_date := strftime_Ymd 739923;
                 interval := py "30d"; rows := 0 |} /\
    data r = PyList [].
Proof.
  split; [reflexivity|].
  exact (proj1 (proj2 (@empty_symbol_fails_unless_resolver_raises
                         Sample.latin1 Sample.frames))
           (Some (py " .SH")) (IntervalStr (py "30d")) Sample.world []
           eq_refl).
Defined.

(** C8 as stated fails.  The provider answers with two bars of 2 January
    2024, the second with an infinite close: the fetcher returns both, so
    the dates are not strictly increasing, and one [Close] is not
    finite. *)
Lemma fetched_table_keeps_equal_dates :
  exists b1 b2 tr',
    @fetch_china_stock_data Sample.frames (Some (py "600519"))
      (strftime_Ymd 739893) (strftime_Ymd 739923) Sample.world [] =
      (Ok [b1; b2], tr') /\
    Date b1 = Date b2 /\
    ~ (Date b1 < Date b2)%Z /\
    Close b2 = Float64 infinity /\
    is_finite infinity = false.
Proof.
  eexists _, _, _. split; [vm_compute; reflexivity|].
  repeat split; try reflexivity. simpl. lia.
Qed.

End SampleRuns.

(* ================================================================== *)
(** ** More on the symbol normaliser *)
(* ================================================================== *)

Section NormalizerMore.

Lemma before_app_sep (sep : codepoint) (s t : str) :
  ~ In sep s -> before sep (s ++ sep :: t) = s.
Proof.
  induction s as [|c r IH]; simpl; intros H.
  - now rewrite N.eqb_refl.
  - destruct (N.eqb_spec c sep) as [->|]; [tauto|].
    f_equal. apply IH. tauto.
Qed.

Lemma lstrip_pad (pre x : str) :
  forallb isspace pre = true -> lstrip (pre ++ x) = lstrip x.
Proof.
  induction pre as [|c r IH]; simpl; trivial.
  destruct (isspace c); simpl; [exact IH|discriminate].
Qed.

Lemma rstrip_all_space (post : str) :
  forallb isspace post = true -> rstrip post = [].
Proof.
  induction post as [|c r IH]; trivial.
  simpl forallb. intros H. apply andb_true_iff in H as [Hc Hr].
  now rewrite rstrip_cons, IH, Hc.
Qed.

Lemma rstrip_pad (x post : str) :
  forallb isspace post = true -> rstrip (x ++ post) = rstrip x.
Proof.
  intros H. induction x as [|c r IH].
  - now apply rstrip_all_space.
  - change ((c :: r) ++ post) with (c :: (r ++ post)).
    now rewrite !rstrip_cons, IH.
Qed.

Lemma strip_pad (pre x post : str) :
  forallb isspace pre = true -> forallb isspace post = true ->
  strip (pre ++ x ++ post) = strip x.
Proof.
  intros Hpre Hpost. unfold strip.
  rewrite lstrip_pad by exact Hpre.
  rewrite <- !lstrip_rstrip. now rewrite rstrip_pad.
Qed.

Lemma lstrip_nil_iff (s : str) : lstrip s = [] <-> forallb isspace s = true.
Proof.
  split; [|apply lstrip_all_space].
  induction s as [|c r IH]; simpl; trivial.
  destruct (isspace c); simpl; [exact IH|discriminate].
Qed.

(** X1.  An exchange suffix never matters: when [s] holds no dot, [s]
    followed by a dot and anything at all has the symbol of [s]. *)
Theorem normalize_drops_any_suffix (s t : str) :
  ~ In dot s ->
  _normalize_stock_symbol (Some (s ++ dot :: t)) =
  _normalize_stock_symbol (Some s).
Proof.
  intros H. rewrite !normalize_spec.
  now rewrite before_app_sep, before_id.
Qed.

(** X2.  White space around a stock code never matters: padding a stock
    code with white space on either side leaves its symbol the same. *)
Theorem normalize_ignores_padding (pre s post : str) :
  forallb isspace pre = true -> forallb isspace post = true ->
  _normalize_stock_symbol (Some (pre ++ s ++ post)) =
  _normalize_stock_symbol (Some s).
Proof.
  intros Hpre Hpost. unfold _normalize_stock_symbol.
  now rewrite strip_pad.
Qed.

(** X3.  The symbol of a stock code is empty exactly when the stock code
    is absent or the part before its first dot is nothing but white
    space. *)
Theorem symbol_empty_exactly (stock_code : option str) :
  _normalize_stock_symbol stock_code = [] <->
  match stock_code with
  | None => True
  | Some s => forallb isspace (before dot s) = true
  end.
Proof.
  destruct stock_code as [s|]; [|simpl; tauto].
  rewrite normalize_spec, strip_nil. apply lstrip_nil_iff.
Qed.

End NormalizerMore.

(* ================================================================== *)
(** ** More on parsing an interval *)
(* ================================================================== *)

Section ParserMore.
Context {U : UnicodeDB}.
Import ExnMonad.

(** A check of the ASCII table, code by code. *)
Lemma ascii_table_check (f : codepoint -> bool) :
  forallb f (map N.of_nat (seq 0 128)) = true ->
  forall c, (c < 128)%N -> f c = true.
Proof.
  intros H c Hc. rewrite forallb_forall in H. apply H.
  apply in_map_iff. exists (N.to_nat c). split; [apply N2Nat.id|].
  apply in_seq. lia.
Qed.

Lemma letter_facts (u : codepoint) :
  is_ascii_letter u ->
  isspace u = false /\ isascii u = true /\
  inert (ascii_lower u) /\ isdigit_char (ascii_lower u) = false.
Proof.
  intros H.
  assert (u < 128)%N as Hu by (unfold is_ascii_letter in H; lia).
  pose (f := fun c : codepoint =>
    implb (((65 <=? c) && (c <=? 90)) || ((97 <=? c) && (c <=? 122)))%N
      (negb (isspace c) && isascii c &&
       negb (isspace (ascii_lower c)) && isascii (ascii_lower c) &&
       N.eqb (ascii_lower (ascii_lower c)) (ascii_lower c) &&
       negb (isdigit_char (ascii_lower c)))).
  assert (forallb f (map N.of_nat (seq 0 128)) = true) as T
    by (vm_compute; reflexivity).
  pose proof (ascii_table_check f T Hu) as F. unfold f in F.
  replace ((((65 <=? u) && (u <=? 90)) || ((97 <=? u) && (u <=? 122)))%N)
    with true in F.
  - simpl in F. repeat (apply andb_true_iff in F as [F ?]).
    repeat match goal with
           | X : negb _ = true |- _ => apply negb_true_iff in X
           | X : N.eqb _ _ = true |- _ => apply N.eqb_eq in X
           end.
    unfold inert. repeat split; assumption.
  - symmetry. apply orb_true_iff. rewrite !andb_true_iff, !N.leb_le.
    exact H.
Qed.

Lemma lstrip_no_space (s : str) :
  Forall (fun c => isspace c = false) s -> lstrip s = s.
Proof. destruct 1 as [|c r H _]; simpl; trivial. now rewrite H. Qed.

Lemma rstrip_no_space (s : str) :
  Forall (fun c => isspace c = false) s -> rstrip s = s.
Proof.
  induction 1 as [|c r H _ IH]; trivial.
  rewrite rstrip_cons, IH, H. now destruct r.
Qed.

Lemma strip_no_space (s : str) :
  Forall (fun c => isspace c = false) s -> strip s = s.
Proof.
  intros H. unfold strip. rewrite lstrip_no_space by trivial.
  now apply rstrip_no_space.
Qed.

Lemma map_lower_inert (s : str) : Forall inert s -> map ascii_lower s = s.
Proof.
  induction 1 as [|c r (_ & _ & Hc) _ IH]; simpl; [trivial|now rewrite Hc, IH].
Qed.

(** The parser sees a text only through its trimmed, lowered form. *)
Lemma parse_by_core (s1 s2 : str) (default_days : Z) :
  lower (strip s1) = lower (strip s2) ->
  _parse_interval_to_days (IntervalStr s1) default_days =
  _parse_interval_to_days (IntervalStr s2) default_days.
Proof. intros E. unfold _parse_interval_to_days. now rewrite E. Qed.

(** X4.  The parser reads a count and a unit letter whatever the case of
    the letter and whatever white space surrounds the text: the letter is
    taken in its lower case, where "d", "m" and "y" select days, 30-day
    months and 365-day years and any other letter selects the default.
    This holds for a count written with at most 4300 digits, the most
    [int] converts; a longer count makes the text malformed, and the
    parser returns the default. *)
Theorem parse_ignores_case_and_padding
  (n default_days : Z) (u : codepoint) (pre post : str) :
  (0 <= n)%Z -> is_ascii_letter u ->
  forallb isspace pre = true -> forallb isspace post = true ->
  _parse_interval_to_days
    (IntervalStr (pre ++ str_of_int n ++ [u] ++ post)) default_days =
  Ok (if within_digit_limit n
      then days_of_unit (ascii_lower u) n default_days
      else default_days).
Proof.
  intros C Hu Hpre Hpost.
  destruct (letter_facts Hu) as (Su & Au & Iu & Du).
  rewrite <- (parse_number_unit_limit default_days C Iu Du).
  apply parse_by_core.
  assert (Forall inert (str_of_int n)) as Hn by (now apply str_of_int_inert).
  rewrite (app_assoc (str_of_int n)), strip_pad by trivial.
  rewrite strip_no_space.
  2: { apply Forall_app. split; [|now constructor].
       eapply Forall_impl; [|exact Hn]. now intros c (H & _). }
  rewrite strip_inert, (lower_inert (s := _ ++ [ascii_lower u]))
    by (apply Forall_app; split; [exact Hn|now constructor]).
  unfold lower.
  replace (forallb isascii (str_of_int n ++ [u])) with true.
  - now rewrite map_app, map_lower_inert.
  - symmetry. rewrite forallb_app. simpl. rewrite Au.
    rewrite andb_true_r. apply forallb_forall.
    rewrite Forall_forall in Hn. intros c Hc. apply (Hn c Hc).
Qed.

(** X5.  A negative count is read differently as a number and as a text:
    the integer is raised to 1 day, while its text, which starts with a
    minus sign, counts as malformed and selects the default. *)
Theorem parse_negative_number_and_text (n default_days : Z) :
  (n < 0)%Z ->
  _parse_interval_to_days (IntervalInt n) default_days = Ok 1%Z /\
  _parse_interval_to_days (IntervalStr (str_of_int n)) default_days =
  Ok default_days.
Proof.
  intros Hn. split; [simpl; f_equal; lia|].
  unfold str_of_int. destruct (Z.ltb_spec n 0); [|lia].
  set (ds := digits_fuel _ _ _).
  assert (Forall is_decimal_char ds) as Hds by apply digits_fuel_decimal.
  assert (ds <> []) as Hne.
  { pose proof (digits_fuel_length (Z.to_nat (Z.log2 (- n))) (- n)) as L.
    fold ds in L. intros E. rewrite E in L. simpl in L. lia. }
  assert (Forall inert (45%N :: ds)) as Hs.
  { constructor; [repeat split; reflexivity|].
    eapply Forall_impl; [apply decimal_inert|exact Hds]. }
  unfold _parse_interval_to_days.
  rewrite strip_inert, lower_inert by exact Hs.
  destruct ds as [|d ds']; [congruence|]. reflexivity.
Qed.

End ParserMore.

(* ================================================================== *)
(** ** More on the interval resolver *)
(* ================================================================== *)

Section ResolverMore.
Context {U : UnicodeDB} {P : Pandas}.
Local Open Scope Z_scope.

(** The range depends on the interval through its day count alone, and so
    does the whole response. *)
Lemma calc_by_days (i1 i2 : IntervalType) :
  _parse_interval_to_days i1 365 = _parse_interval_to_days i2 365 ->
  forall e tr, _calc_date_range i1 e tr = _calc_date_range i2 e tr.
Proof. intros E e tr. unfold _calc_date_range. now rewrite E. Qed.

Lemma orchestrator_by_days (i1 i2 : IntervalType) :
  _parse_interval_to_days i1 365 = _parse_interval_to_days i2 365 ->
  forall sc e tr,
    get_stock_data_with_features sc i1 e tr =
    get_stock_data_with_features sc i2 e tr.
Proof.
  intros E sc e tr. now rewrite !orchestrator_run, (calc_by_days _ _ E).
Qed.

(** X6.  The response depends on the interval only through its day
    count.  For a positive n written with at most 4300 digits, the most
    [int] converts, "<n>y" is answered as the integer 365 n, "<n>m" as
    the integer 30 n, and "<n>d" and "<n>" as the integer n, trace
    included; with more digits each of the four texts is answered as an
    absent interval is, by the default of 365 days. *)
Theorem response_depends_on_day_count
  (n : Z) (sc : option str) (e : env) (tr : list event) :
  0 < n ->
  let counted (days : Z) :=
    if within_digit_limit n then IntervalInt days else IntervalNone in
  get_stock_data_with_features sc (IntervalStr (str_of_int n ++ py "y")) e tr =
    get_stock_data_with_features sc (counted (n * 365)) e tr /\
  get_stock_data_with_features sc (IntervalStr (str_of_int n ++ py "m")) e tr =
    get_stock_data_with_features sc (counted (n * 30)) e tr /\
  get_stock_data_with_features sc (IntervalStr (str_of_int n ++ py "d")) e tr =
    get_stock_data_with_features sc (counted n) e tr /\
  get_stock_data_with_features sc (IntervalStr (str_of_int n)) e tr =
    get_stock_data_with_features sc (counted n) e tr.
Proof.
  intros Hn counted.
  assert (0 <= n) as Cn by lia.
  destruct (@unit_letters_inert U) as ((Id & Dd) & (Im & Dm) & (Iy & Dy)).
  repeat split; apply orchestrator_by_days; unfold counted.
  - change (py "y") with [unit_y].
    rewrite (parse_number_unit_limit 365 Cn Iy Dy).
    now destruct (within_digit_limit n).
  - change (py "m") with [unit_m].
    rewrite (parse_number_unit_limit 365 Cn Im Dm).
    now destruct (within_digit_limit n).
  - change (py "d") with [unit_d].
    rewrite (parse_number_unit_limit 365 Cn Id Dd).
    now destruct (within_digit_limit n).
  - rewrite (parse_number_limit 365 Cn).
    now destruct (within_digit_limit n).
Qed.

(** X7.  The name the resolver gives a range resolves to that same range:
    whenever an interval resolves, handing the normalised interval back to
    the resolver returns the same start, end and name. *)
Theorem normalized_interval_resolves_to_itself
  (i : IntervalType) (e : env) (tr : list event) :
  match fst (_calc_date_range i e tr) with
  | Ok (_, _, name) =>
      _calc_date_range (IntervalStr name) e tr = _calc_date_range i e tr
  | Raise _ => True
  end.
Proof.
  destruct (calc_date_range_run i e tr) as (d & E & Hd & R).
  assert (timedelta d = Ok d ->
          _calc_date_range (IntervalStr (str_of_int d ++ py "d")) e tr =
          _calc_date_range i e tr) as Same.
  { unfold timedelta, max_delta_days.
    destruct (Z.ltb_spec 999999999 (Z.abs d)); [discriminate|]. intros _.
    apply calc_by_days. rewrite E.
    assert (convertible d) as C.
    { split; [lia|]. apply Z.le_lt_trans with (2 ^ 30); [lia|].
      apply Z.pow_lt_mono_r; lia. }
    destruct (@unit_letters_inert U) as ((Id & Dd) & _).
    change (py "d") with [unit_d].
    rewrite (parse_number_unit 365 C Id Dd).
    change (days_of_unit unit_d d 365) with (Z.max 1 d). f_equal. lia. }
  rewrite R in *. clear R.
  destruct (timedelta d) as [delta|x] eqn:T; [|exact I].
  assert (delta = d) as ->.
  { unfold timedelta in T. destruct (_ <? _); congruence. }
  destruct (datetime_sub (today e) d); [|exact I].
  simpl. now apply Same.
Qed.

(** X8.  With the clock on a day of the calendar, an interval of d days
    resolves exactly when d is less than today's ordinal; from there on
    the resolver raises [OverflowError]. *)
Theorem resolver_returns_exactly_within_calendar
  (i : IntervalType) (e : env) (tr : list event) (d : Z) :
  clock_in_range e ->
  _parse_interval_to_days i 365 = Ok d ->
  ((exists range, _calc_date_range i e tr = (Ok range, tr)) <-> d < today e) /\
  (today e <= d -> _calc_date_range i e tr = (Raise OverflowError, tr)).
Proof.
  intros Hc E. split; [split|].
  - intros (range & R). destruct (Z.lt_ge_cases d (today e)) as [|Hge]; trivial.
    rewrite (calc_date_range_overflow i e tr E Hge) in R. discriminate.
  - intros Hlt.
    destruct (parse_total i 365) as (d' & E' & Hd').
    rewrite E in E'. injection E' as <-.
    assert (1 <= d < today e) as Hr by lia.
    destruct (@calc_date_range_days U P i e d E Hc Hr tr) as (a & b & R & _).
    eauto.
  - apply calc_date_range_overflow. exact E.
Qed.

End ResolverMore.

(* ================================================================== *)
(** ** More on the data fetcher *)
(* ================================================================== *)

Section FetcherMore.
Context {U : UnicodeDB} {P : Pandas}.
Import ExnMonad.
Local Open Scope Z_scope.

(** [pd.to_numeric] on a column raises nothing but [TypeError]. *)
Lemma to_numeric_column_raises (cells : list cell) (x : exn) :
  to_numeric_column cells = Raise x -> x = TypeError.
Proof.
  unfold to_numeric_column. destruct (all_some _); [discriminate|].
  congruence.
Qed.

(** Two columns under the label of the date: [ValueError]. *)
Lemma standardise_date_twice (df : RawFrame cell) :
  repeated (columns df) Label.riqi = true ->
  standardise df = Raise ValueError.
Proof. intros H. unfold standardise. now rewrite H. Qed.

(** Two columns under the label of a price or of the volume: no table;
    [TypeError], unless [pd.to_datetime] raised before. *)
Lemma standardise_number_twice (df : RawFrame cell) :
  repeated (columns df) Label.riqi = false ->
  existsb (repeated (columns df))
    [Label.kaipan; Label.zuigao; Label.zuidi; Label.shoupan;
     Label.chengjiaoliang] = true ->
  exists x,
    standardise df = Raise x /\
    (x = TypeError \/
     to_datetime (map (fun r => r Label.riqi) (raw_rows df)) = Raise x).
Proof.
  intros Hd Hn. unfold standardise, bind. rewrite Hd.
  destruct (to_datetime _) as [dates|x]; [|exists x; auto].
  exists TypeError. split; [|now left].
  cbn [existsb] in Hn. rewrite orb_false_r in Hn.
  repeat match goal with
         | |- context [if repeated (columns df) ?l then _ else _] =>
             destruct (repeated (columns df) l); [reflexivity|]
         | |- context [to_numeric_column ?c] =>
             let E := fresh "E" in
             destruct (to_numeric_column c) as [?|?] eqn:E;
             [|now rewrite (to_numeric_column_raises _ E)]
         end.
  discriminate.
Qed.

Lemma all_some_missing (A B : Type) (f : A -> option B) (l : list A) :
  all_some (map f l) = None -> exists a, In a l /\ f a = None.
Proof.
  induction l as [|a l IH]; simpl; [discriminate|].
  destruct (f a) as [x|] eqn:E; [|exists a; auto].
  destruct (all_some (map f l)); [discriminate|].
  intros _. destruct IH as (a' & Ha & Hf); trivial. exists a'. auto.
Qed.

Lemma to_numeric_column_raise_cell (label : str)
      (rows : list (Z * (str -> cell))) (x : exn) :
  to_numeric_column (column label rows) = Raise x ->
  x = TypeError /\
  exists dr, In dr rows /\ to_numeric (snd dr label) = None.
Proof.
  intros H. split; [exact (to_numeric_column_raises _ H)|].
  unfold to_numeric_column, column in H. rewrite map_map in H.
  destruct (all_some _) eqn:E; [discriminate|].
  exact (all_some_missing _ _ E).
Qed.

(** Why the fetcher's last lines raise: two columns under one of the six
    labels, [pd.to_datetime] raising on the dates, or [pd.to_numeric]
    raising on a value of a row that has a date. *)
Lemma standardise_raise_cause (df : RawFrame cell) (x : exn) :
  standardise df = Raise x ->
  (repeated (columns df) Label.riqi = true /\ x = ValueError) \/
  to_datetime (map (fun r => r Label.riqi) (raw_rows df)) = Raise x \/
  (x = TypeError /\
   exists label,
     In label [Label.kaipan; Label.zuigao; Label.zuidi; Label.shoupan;
               Label.chengjiaoliang] /\
     (repeated (columns df) label = true \/
      exists dr, In dr (dated_rows df) /\
                 to_numeric (snd dr label) = None)).
Proof.
  unfold standardise, dated_rows, bind.
  destruct (repeated (columns df) Label.riqi);
    [intros H; left; split; congruence|].
  destruct (to_datetime _) as [dates|y]; [|intros H; right; left; congruence].
  set (kept := flat_map _ _). intros H. right. right.
  assert (forall label y,
            to_numeric_column (column label (sort_index kept)) = Raise y ->
            y = TypeError /\
            exists dr, In dr kept /\ to_numeric (snd dr label) = None)
    as Hcell.
  { intros label y Hy.
    destruct (to_numeric_column_raise_cell _ _ Hy) as (-> & dr & Hin & Hn).
    split; trivial. exists dr. split; trivial.
    exact (Permutation_in _ (sort_index_perm kept) Hin). }
  repeat match type of H with
         | context [if repeated (columns df) ?l then _ else _] =>
             let E := fresh "E" in
             destruct (repeated (columns df) l) eqn:E;
             [ injection H as <-; split; trivial; exists l;
               split; [simpl; tauto|now left]
             | ]
         | context [to_numeric_column (column ?l ?rows)] =>
             let E := fresh "E" in
             destruct (to_numeric_column (column l rows)) as [?|?] eqn:E;
             [ | injection H as <-;
                 destruct (Hcell _ _ E) as (-> & Hdr);
                 split; trivial; exists l;
                 split; [simpl; tauto|now right] ]
         end.
  discriminate.
Qed.

(** X11.  When the fetcher's last lines return a table, it holds exactly
    the bars of the provider rows that have a parseable date and a close
    that is not missing: each such row once, no other row, whatever the
    other columns hold.  They return one unless two columns carry one of
    the six labels, [pd.to_datetime] raises on the dates, or
    [pd.to_numeric] raises on a value of a row that has a date. *)
Theorem standardise_keeps_exactly_dated_rows_with_close
  (df : RawFrame cell) :
  match standardise df with
  | Ok table => Permutation table (kept_bars df)
  | Raise x =>
      (repeated (columns df) Label.riqi = true /\ x = ValueError) \/
      to_datetime (map (fun r => r Label.riqi) (raw_rows df)) = Raise x \/
      (x = TypeError /\
       exists label,
         In label [Label.kaipan; Label.zuigao; Label.zuidi; Label.shoupan;
                   Label.chengjiaoliang] /\
         (repeated (columns df) label = true \/
          exists dr, In dr (dated_rows df) /\
                     to_numeric (snd dr label) = None))
  end.
Proof.
  destruct (standardise df) as [table|x] eqn:E.
  - exact (standardise_kept _ E).
  - exact (standardise_raise_cause _ E).
Qed.

(** What the fetcher adds to the trace, and when its table is empty. *)
Lemma fetch_trace (sc : option str) (sd ed : date_str) (e : env)
      (tr : list event) :
  let call := ProviderCalled (_normalize_stock_symbol sc)
                (remove_dashes sd) (remove_dashes ed) in
  exists evs,
    snd (fetch_china_stock_data sc sd ed e tr) = tr ++ evs /\
    ((_normalize_stock_symbol sc = [] /\ evs = [] /\
      fst (fetch_china_stock_data sc sd ed e tr) = Ok []) \/
     (_normalize_stock_symbol sc <> [] /\
      (evs = [call] \/
       exists d, evs = [call; Printed d] /\
                 fst (fetch_china_stock_data sc sd ed e tr) = Ok []))).
Proof.
  intros call. pose proof (fetch_run sc sd ed e tr) as H. cbv zeta in H.
  fold call in H.
  destruct (_normalize_stock_symbol sc) as [|c s] eqn:E.
  - exists []. cbn [is_empty] in H. rewrite H, app_nil_r. auto.
  - assert (c :: s <> []) as Hne by discriminate.
    change (is_empty (c :: s)) with false in H. cbv iota in H.
    destruct (stock_zh_a_hist e (c :: s) (remove_dashes sd) (remove_dashes ed))
      as [|[df|]].
    + rewrite H. eexists. split; [reflexivity|]. right. split; trivial.
      right. eexists. split; reflexivity.
    + destruct (frame_empty df).
      { rewrite H. eexists. split; [reflexivity|]. right. split; trivial.
        now left. }
      destruct (has_six_columns df).
      * rewrite H. eexists. split; [reflexivity|]. right. split; trivial.
        now left.
      * destruct H as (d & ->). eexists. split; [reflexivity|].
        right. split; trivial. right. eexists. split; reflexivity.
    + rewrite H. eexists. split; [reflexivity|]. right. split; trivial.
      now left.
Qed.

(** X9.  The fetcher calls the provider exactly once when the symbol is
    not empty, with the symbol and the two dates without their dashes, and
    not at all when the symbol is empty; it writes at most one diagnostic,
    and then returns the empty table.  An exception of the provider is
    caught: the fetcher writes its diagnostic and returns the empty table.
    The fetcher itself raises only after the call, with no diagnostic,
    when its last lines raise on a frame of the provider that has rows and
    the six columns. *)
Theorem fetch_calls_once_and_absorbs_provider_failure
  (sc : option str) (sd ed : date_str) (e : env) (tr : list event) :
  let symbol := _normalize_stock_symbol sc in
  let call := ProviderCalled symbol (remove_dashes sd) (remove_dashes ed) in
  exists evs,
    snd (fetch_china_stock_data sc sd ed e tr) = tr ++ evs /\
    at_most_one_call symbol sd ed evs /\
    (evs = [] <-> symbol = []) /\
    (symbol <> [] ->
     stock_zh_a_hist e symbol (remove_dashes sd) (remove_dashes ed) =
       ProviderRaises ->
     fetch_china_stock_data sc sd ed e tr =
     (Ok [], tr ++ [call; Printed (AkShareError symbol sd ed)])) /\
    match fst (fetch_china_stock_data sc sd ed e tr) with
    | Ok df => forall d, In (Printed d) evs -> df = []
    | Raise x =>
        evs = [call] /\
        exists frame,
          stock_zh_a_hist e symbol (remove_dashes sd) (remove_dashes ed) =
            ProviderReturns (Some frame) /\
          frame_empty frame = false /\
          has_six_columns frame = true /\
          standardise frame = Raise x
    end.
Proof.
  intros symbol call.
  destruct (fetch_trace sc sd ed e tr) as (evs & E & H).
  pose proof (fetch_outcome sc sd ed e tr) as Ho.
  pose proof (fetch_run sc sd ed e tr) as Hr. cbv zeta in Hr.
  fold symbol call in H, Ho, Hr |- *.
  exists evs. split; [exact E|]. unfold at_most_one_call.
  assert (symbol <> [] ->
          stock_zh_a_hist e symbol (remove_dashes sd) (remove_dashes ed) =
            ProviderRaises ->
          fetch_china_stock_data sc sd ed e tr =
          (Ok [], tr ++ [call; Printed (AkShareError symbol sd ed)])) as Hp.
  { intros Hs Hp. rewrite Hp in Hr.
    destruct symbol; [congruence|exact Hr]. }
  destruct H as [(Hs & -> & Hf)|(Hs & [->|(d & -> & Hf)])].
  - rewrite Hf. repeat split; auto.
  - repeat split; auto; try discriminate; try tauto.
    destruct (fst (fetch_china_stock_data sc sd ed e tr)) as [df|x].
    + intros d [H|[]]. discriminate.
    + split; [reflexivity|exact Ho].
  - rewrite Hf. repeat split; eauto; try discriminate. tauto.
Qed.

(** X10.  When the symbol is not empty and the provider returns a frame
    with rows and columns, the fetcher returns the empty table if one of
    the six columns of the provider is missing, and otherwise what its
    last lines make of the frame, a table or an exception.  The last lines raise [ValueError] when two
    columns carry the label of the date, and raise, [TypeError] unless
    [pd.to_datetime] raised before, when two columns carry the label of a
    price or of the volume. *)
Theorem fetch_needs_all_six_columns
  (sc : option str) (sd ed : date_str) (e : env) (tr : list event)
  (df : RawFrame cell) :
  _normalize_stock_symbol sc <> [] ->
  stock_zh_a_hist e (_normalize_stock_symbol sc)
    (remove_dashes sd) (remove_dashes ed) = ProviderReturns (Some df) ->
  frame_empty df = false ->
  fst (fetch_china_stock_data sc sd ed e tr) =
    (if has_six_columns df then standardise df else Ok []) /\
  (repeated (columns df) Label.riqi = true ->
   standardise df = Raise ValueError) /\
  (repeated (columns df) Label.riqi = false ->
   existsb (repeated (columns df))
     [Label.kaipan; Label.zuigao; Label.zuidi; Label.shoupan;
      Label.chengjiaoliang] = true ->
   exists x,
     standardise df = Raise x /\
     (x = TypeError \/
      to_datetime (map (fun r => r Label.riqi) (raw_rows df)) = Raise x)).
Proof.
  intros Hs Hp Hne.
  split; [|split; [apply standardise_date_twice
                  |apply standardise_number_twice]].
  pose proof (fetch_run sc sd ed e tr) as H. cbv zeta in H.
  destruct (_normalize_stock_symbol sc) as [|c s]; [congruence|].
  change (is_empty (c :: s)) with false in H. cbv iota in H.
  rewrite Hp, Hne in H.
  destruct (has_six_columns df); [now rewrite H|].
  destruct H as (d & ->). reflexivity.
Qed.

End FetcherMore.

(* ================================================================== *)
(** ** More on the indicator engine and the sanitiser *)
(* ================================================================== *)

Section NanFacts.
Local Open Scope float_scope.

Lemma SFeqb_same (s : spec_float) : s <> S754_nan -> SFeqb s s = true.
Proof.
  destruct s as [b|b| |b m e]; intros H; try congruence.
  - destruct b; reflexivity.
  - destruct b; reflexivity.
  - unfold SFeqb, SFcompare. rewrite Z.compare_refl.
    destruct b; simpl; now rewrite Pos.compare_cont_refl.
Qed.

Lemma is_nan_spec (x : float) : is_nan x = true <-> Prim2SF x = S754_nan.
Proof.
  unfold is_nan. rewrite eqb_spec. split.
  - intros H. destruct (Prim2SF x) eqn:E; trivial;
      rewrite SFeqb_same in H by discriminate; discriminate.
  - intros ->. reflexivity.
Qed.

(** Not-a-number spreads through the arithmetic. *)
Lemma div_by_nan (x y : float) : is_nan y = true -> is_nan (x / y) = true.
Proof.
  rewrite !is_nan_spec, div_spec. intros ->.
  destruct (Prim2SF x); reflexivity.
Qed.

Lemma add_nan (x y : float) : is_nan y = true -> is_nan (x + y) = true.
Proof.
  rewrite !is_nan_spec, add_spec. intros ->.
  destruct (Prim2SF x); reflexivity.
Qed.

Lemma sub_nan (x y : float) : is_nan y = true -> is_nan (x - y) = true.
Proof.
  rewrite !is_nan_spec, sub_spec. intros ->.
  destruct (Prim2SF x); reflexivity.
Qed.

Lemma rsi_of_nan (x : float) :
  is_nan x = true -> is_nan (100 - (100 / (1 + x))) = true.
Proof. intros H. now apply sub_nan, div_by_nan, add_nan. Qed.

End NanFacts.

Section SeriesFacts.
Variables (A B : Type).

Lemma nth_error_combine (l1 : list A) (l2 : list B) :
  forall i a b,
    nth_error (combine l1 l2) i = Some (a, b) ->
    nth_error l1 i = Some a /\ nth_error l2 i = Some b.
Proof.
  revert l2. induction l1 as [|x l1 IH]; intros [|y l2] [|i] a b;
    simpl; try discriminate.
  - intros H. injection H as -> ->. now split.
  - apply IH.
Qed.

Lemma nth_error_numbered (l : list A) :
  forall start i j a,
    nth_error (combine (seq start (List.length l)) l) i = Some (j, a) ->
    j = (start + i)%nat.
Proof.
  induction l as [|x l IH]; intros start [|i] j a; simpl; try discriminate.
  - intros H. injection H as <- _. lia.
  - intros H. apply IH in H. lia.
Qed.

(** A value of a mapped series is the image of a value of the series, or
    the default past its end. *)
Lemma nth_of_map (g : A -> float) (l : list A) (i : nat) :
  (exists x, nth_error l i = Some x /\ nth i (map g l) nan = g x) \/
  nth i (map g l) nan = nan.
Proof.
  destruct (nth_error l i) as [x|] eqn:E.
  - left. exists x. split; trivial.
    apply nth_error_nth. now rewrite nth_error_map, E.
  - right. apply nth_overflow. rewrite length_map.
    now apply nth_error_None.
Qed.

End SeriesFacts.

Section EngineMore.
Context {U : UnicodeDB} {P : Pandas}.
Local Open Scope float_scope.

(** Where the average loss compares equal to zero the relative strength
    index is not a number. *)
Lemma rsi_nan_where_avg_loss_zero (close : list float) (i : nat) :
  (nth i (avg_loss close) nan =? 0) = true ->
  is_nan (nth i (rsi close) nan) = true.
Proof.
  intros H. unfold rsi. rewrite map_map.
  destruct (nth_of_map
              (fun p : float * float => 100 - (100 / (1 + fst p / snd p)))
              (combine (avg_gain close) (map replace_0_nan (avg_loss close)))
              i) as [([g l] & E & ->)| ->]; [|reflexivity].
  apply nth_error_combine in E as [_ E].
  rewrite nth_error_map in E.
  destruct (nth_error (avg_loss close) i) as [v|] eqn:Ev; [|discriminate].
  injection E as <-.
  rewrite (nth_error_nth _ _ nan Ev) in H.
  apply rsi_of_nan, div_by_nan. cbn [snd].
  unfold replace_0_nan. now rewrite H.
Qed.

(** The indicators of a row of the enriched table: the values of the
    series at the row's place, rounded. *)
Lemma feature_engineering_row (df : list bar) (i : nat) (r : enriched) :
  nth_error (feature_engineering df) i = Some r ->
  let close := map (fun b => as_float (Close b)) df in
  MA_10 r = round 4 (nth i (rolling_mean 10 close) nan) /\
  MA_50 r = round 4 (nth i (rolling_mean 50 close) nan) /\
  Daily_Return r = round 4 (nth i (pct_change close) nan) /\
  Volatility_20d r =
    round 4 (nth i (rolling_std 20 (pct_change close)) nan) /\
  RSI r = round 4 (nth i (rsi close) nan).
Proof.
  destruct df as [|b df]; [destruct i; discriminate|].
  unfold feature_engineering. rewrite nth_error_map.
  destruct (nth_error (combine _ _) i) as [[j a]|] eqn:E; [|discriminate].
  apply nth_error_numbered in E. subst j.
  intros H. injection H as <-. cbv zeta. cbn [fst snd]. repeat split.
Qed.

(** X17.  Where the trailing average loss of a row compares equal to
    zero, the relative strength index of the row is the rounding of
    not-a-number, not of 100 or of an infinity: the zero divisor was
    replaced by not-a-number before the division, and not-a-number spreads
    through the quotient, the sum and the difference. *)
Theorem rsi_undefined_where_average_loss_is_zero
  (df : list bar) (i : nat) (r : enriched) :
  nth_error (feature_engineering df) i = Some r ->
  (nth i (avg_loss (map (fun b => as_float (Close b)) df)) nan =? 0) = true ->
  exists x, is_nan x = true /\ RSI r = round 4 x.
Proof.
  intros Hr Hz. eexists. split; [exact (rsi_nan_where_avg_loss_zero _ _ Hz)|].
  now destruct (feature_engineering_row _ _ Hr) as (_ & _ & _ & _ & H).
Qed.

Lemma pct_change_nth (close : list float) (t : nat) :
  (S t < List.length close)%nat ->
  nth (S t) (pct_change close) nan =
  nth (S t) close nan / nth t close nan - 1.
Proof.
  destruct close as [|c0 later]; simpl List.length; [lia|]. intros H.
  change (nth t (map (fun p : float * float => fst p / snd p - 1)
                    (combine later (c0 :: later))) nan =
          nth t later nan / nth t (c0 :: later) nan - 1).
  destruct (nth_error (combine later (c0 :: later)) t) as [[a b]|] eqn:E.
  - rewrite (nth_error_nth _ t nan
               (x := a / b - 1)) by (now rewrite nth_error_map, E).
    apply nth_error_combine in E as [Ea Eb].
    now rewrite (nth_error_nth _ _ nan Ea), (nth_error_nth _ _ nan Eb).
  - apply nth_error_None in E. rewrite length_combine in E.
    simpl List.length in E. lia.
Qed.

(** X21.  The indicator engine works row by row on the closes: a row of
    the enriched table holds the values of the rolling means, of the
    rolling deviation of the daily returns and of the relative strength
    series at its own place, each rounded to 4 decimals; its daily return
    is the rounding of not-a-number on the first row and of
    close / previous close - 1 on every later row. *)
Theorem indicators_row_by_row (df : list bar) (i : nat) (r : enriched) :
  nth_error (feature_engineering df) i = Some r ->
  let close := map (fun b => as_float (Close b)) df in
  MA_10 r = round 4 (nth i (rolling_mean 10 close) nan) /\
  MA_50 r = round 4 (nth i (rolling_mean 50 close) nan) /\
  Daily_Return r =
    round 4 (match i with
             | O => nan
             | S t => nth i close nan / nth t close nan - 1
             end) /\
  Volatility_20d r =
    round 4 (nth i (rolling_std 20 (pct_change close)) nan) /\
  RSI r = round 4 (nth i (rsi close) nan).
Proof.
  intros Hr close.
  destruct (feature_engineering_row _ _ Hr) as (H1 & H2 & H3 & H4 & H5).
  fold close in H1, H2, H3, H4, H5.
  repeat match goal with |- _ /\ _ => split end; trivial.
  rewrite H3. f_equal.
  assert (i < List.length close)%nat as Hi.
  { unfold close. rewrite length_map, <- feature_engineering_length.
    apply nth_error_Some. now rewrite Hr. }
  destruct i as [|t]; [|now apply pct_change_nth].
  destruct close; [simpl in Hi; lia|reflexivity].
Qed.

(** X18.  The indicator engine leaves the bars in place: the enriched
    table has, row by row and in the same order, the dates of the input
    and its five price and volume columns rounded to 4 decimals. *)
Theorem feature_engineering_only_rounds_prices (df : list bar) :
  map ohlcv (feature_engineering df) = map rounded df.
Proof.
  destruct df as [|b df]; trivial.
  set (l := b :: df).
  transitivity (map rounded (map snd (combine (seq 0 (List.length l)) l)));
    [|now rewrite map_snd_combine_seq].
  unfold feature_engineering, l. rewrite !map_map. reflexivity.
Qed.

End EngineMore.

Section SanitizerMore.

Lemma find_sanitized (k : str) (items : list (str * pyobj)) :
  find (fun kv => str_eqb (fst kv) k)
    (map (fun kv => (fst kv, _sanitize_for_json (snd kv))) items) =
  option_map (fun kv => (fst kv, _sanitize_for_json (snd kv)))
    (find (fun kv => str_eqb (fst kv) k) items).
Proof.
  induction items as [|[k' v] items IH]; simpl; trivial.
  destruct (str_eqb k' k); trivial.
Qed.

(** X19.  Sanitising keeps the shape of an object: its [len] is the same
    (or fails the same way), a dict keeps its keys in their order, and the
    value under any key of the sanitised dict is the sanitised value under
    that key. *)
Theorem sanitize_keeps_shape (o : pyobj) :
  len (_sanitize_for_json o) = len o /\
  keys (_sanitize_for_json o) = keys o /\
  forall k, get (_sanitize_for_json o) k =
            option_map _sanitize_for_json (get o k).
Proof.
  destruct o as [ |b|n|f|s|t|n|f|x|items|items|items|id];
    try (simpl; repeat split; trivial; fail).
  - simpl. unfold sanitize_float. destruct (_ || _); repeat split.
  - simpl. unfold sanitize_float. destruct (_ || _); repeat split.
  - simpl. repeat split. now rewrite length_map.
  - simpl. repeat split.
    + now rewrite length_map.
    + rewrite map_map. reflexivity.
    + intros k. rewrite find_sanitized.
      destruct (find _ items) as [[k' v]|]; reflexivity.
Qed.

End SanitizerMore.

(* ================================================================== *)
(** ** More on the orchestrator and the handlers *)
(* ================================================================== *)

Section OrchestratorMore.
Context {U : UnicodeDB} {P : Pandas}.
Local Open Scope Z_scope.

(** X13.  Every envelope reports the request it answers: [meta] holds the
    stock code as it was given, its symbol, and the start, the end and the
    name of the resolved range, on failure as on success. *)
Theorem envelope_meta_echoes_request
  (sc : option str) (i : IntervalType) (e : env) (tr : list event) :
  match fst (get_stock_data_with_features sc i e tr),
        fst (_calc_date_range i e tr) with
  | Ok r, Ok (first_day, last_day, name) =>
      stock_code (meta_ r) = sc /\
      symbol (meta_ r) = _normalize_stock_symbol sc /\
      start_date (meta_ r) = first_day /\
      end_date (meta_ r) = last_day /\
      interval (meta_ r) = name
  | Ok _, Raise _ => False
  | Raise _, _ => True
  end.
Proof.
  rewrite orchestrator_run.
  destruct (_calc_date_range i e tr) as [[[[sd ed] nm]|x] tr1]; [|exact I].
  cbv zeta.
  destruct (_normalize_stock_symbol sc) as [|c s] eqn:E.
  - simpl. now repeat split.
  - change (is_empty (c :: s)) with false. cbv iota.
    destruct (fetch_china_stock_data _ _ _ e tr1) as [[[|b df]|x] tr2];
      simpl; now repeat split.
Qed.

(** X14.  Two stock codes with the same symbol are answered alike: the
    same calls of the provider and the same diagnostics, and envelopes
    that differ at most in the stock code they echo. *)
Theorem response_depends_on_symbol
  (sc1 sc2 : option str) (i : IntervalType) (e : env) (tr : list event) :
  _normalize_stock_symbol sc1 = _normalize_stock_symbol sc2 ->
  snd (get_stock_data_with_features sc1 i e tr) =
  snd (get_stock_data_with_features sc2 i e tr) /\
  match fst (get_stock_data_with_features sc1 i e tr),
        fst (get_stock_data_with_features sc2 i e tr) with
  | Ok r1, Ok r2 => apart_from_stock_code r1 = apart_from_stock_code r2
  | Raise x1, Raise x2 => x1 = x2
  | _, _ => False
  end.
Proof.
  intros E. rewrite !orchestrator_run, E.
  destruct (_calc_date_range i e tr) as [[range|x] tr1]; [|now split].
  cbv zeta.
  destruct (is_empty (_normalize_stock_symbol sc2)); [now split|].
  destruct (fetch_china_stock_data _ _ _ e tr1) as [[[|b df]|x] tr2];
    now split.
Qed.

Lemma records_within_reach (l : list enriched) :
  within_reach (to_dict_records l) = true.
Proof.
  unfold to_dict_records. cbn [within_reach]. apply forallb_forall.
  intros o Ho. apply in_map_iff in Ho as (r & <- & _).
  unfold to_record, native.
  destruct (Open (ohlcv r)), (High (ohlcv r)), (Low (ohlcv r)),
    (Close (ohlcv r)), (Volume (ohlcv r)); reflexivity.
Qed.

(** X20.  The data of every envelope is ready for strict JSON: it holds
    no float that is not finite and no numpy scalar, at any depth, and
    sanitising it again would change nothing. *)
Theorem envelope_data_is_finite
  (sc : option str) (i : IntervalType) (e : env) (tr : list event) :
  match fst (get_stock_data_with_features sc i e tr) with
  | Ok r =>
      finite_throughout (data r) = true /\
      plain (data r) = true /\
      within_reach (data r) = true /\
      _sanitize_for_json (data r) = data r
  | Raise _ => True
  end.
Proof.
  rewrite orchestrator_run.
  destruct (_calc_date_range i e tr) as [[range|x] tr1]; [|exact I].
  cbv zeta.
  destruct (is_empty (_normalize_stock_symbol sc)); [now repeat split|].
  destruct (fetch_china_stock_data _ _ _ e tr1) as [[[|b df]|x] tr2];
    [now repeat split| |exact I].
  cbn [fst data success_envelope]. rewrite <- sanitize_records.
  pose proof (sanitize_plain (to_dict_records (feature_engineering (b :: df))))
    as Hp.
  pose proof (sanitize_within_reach _
                (records_within_reach (feature_engineering (b :: df)))) as Hw.
  repeat split; trivial.
  - now apply plain_finite.
  - now apply plain_fixed.
Qed.

(** X15.  Once the interval resolves, the orchestrator adds nothing to
    the trace when the symbol is empty, and otherwise one call of the
    provider, with the symbol and the dates of the range without their
    dashes, followed by at most one diagnostic; a success envelope comes
    with the call alone.  It returns an envelope unless the fetcher
    raises, which the orchestrator does not catch: then the call raises
    what the fetcher raised, after the one call of the provider. *)
Theorem orchestrator_calls_provider_at_most_once
  (sc : option str) (i : IntervalType) (e : env) (tr : list event) :
  match fst (_calc_date_range i e tr) with
  | Ok (first_day, last_day, _) =>
      let call := ProviderCalled (_normalize_stock_symbol sc)
                    (remove_dashes first_day) (remove_dashes last_day) in
      exists evs,
        snd (get_stock_data_with_features sc i e tr) = tr ++ evs /\
        at_most_one_call (_normalize_stock_symbol sc) first_day last_day evs /\
        (evs = [] <-> _normalize_stock_symbol sc = []) /\
        match fst (get_stock_data_with_features sc i e tr) with
        | Ok r => if success r then evs = [call] else True
        | Raise x =>
            evs = [call] /\
            fst (fetch_china_stock_data (Some (_normalize_stock_symbol sc))
                   first_day last_day e tr) = Raise x
        end
  | Raise x => get_stock_data_with_features sc i e tr = (Raise x, tr)
  end.
Proof.
  rewrite orchestrator_run.
  pose proof (calc_date_range_trace i e tr) as Htr.
  destruct (_calc_date_range i e tr) as [[[[sd ed] nm]|x] tr1];
    simpl in Htr; subst tr1; [|reflexivity].
  cbv zeta. cbn [fst snd]. unfold at_most_one_call.
  destruct (_normalize_stock_symbol sc) as [|c s] eqn:E.
  - simpl. exists []. rewrite app_nil_r. repeat split; auto.
  - change (is_empty (c :: s)) with false. cbv iota.
    pose proof (fetch_trace (@Some str (c :: s)) sd ed e tr) as H.
    cbv zeta in H.
    rewrite <- E, normalize_fixed, E in H.
    destruct H as (evs & Ef & H).
    destruct (fetch_china_stock_data (@Some str (c :: s)) sd ed e tr)
      as [[df|x] tr2]; cbn [fst snd] in *; subst tr2.
    + destruct H as [(H & _)|(_ & [->|(d & -> & Hd)])]; [discriminate| |].
      * destruct df as [|b df]; eexists; (split; [reflexivity|]);
          simpl; repeat split; auto; discriminate.
      * injection Hd as ->. eexists. split; [reflexivity|].
        simpl. repeat split; eauto; discriminate.
    + destruct H as [(H & _)|(_ & [->|(d & -> & Hd)])];
        [discriminate| |discriminate].
      eexists. split; [reflexivity|].
      simpl. repeat split; auto; discriminate.
Qed.

(** X16.  The two routes agree on a count of days: posting the integer n,
    when n is not negative and is written with at most 4300 digits, the
    most [int] converts, is answered as getting with the text of n in the
    query, trace included; getting with a longer text is answered as
    getting with no interval at all is, by the default of 365 days. *)
Theorem post_integer_as_get_text
  (sc : str) (n : Z) (e : env) (tr : list event) :
  0 <= n ->
  Api.get_stock sc (str_of_int n) e tr =
  if within_digit_limit n then
    Api.post_stock {| Api.req_stock_code := sc;
                      Api.req_interval := Api.AsInt n |} e tr
  else get_stock_data_with_features (Some sc) IntervalNone e tr.
Proof.
  intros C. unfold Api.post_stock, Api.get_stock. cbn [Api.req_interval
    Api.req_stock_code].
  rewrite (orchestrator_by_days
             (IntervalStr (str_of_int n))
             (if within_digit_limit n then IntervalInt n else IntervalNone)).
  - now destruct (within_digit_limit n).
  - rewrite (parse_number_limit 365 C).
    now destruct (within_digit_limit n).
Qed.

End OrchestratorMore.

(* ================================================================== *)
(** ** More results on sample data *)
(* ================================================================== *)

Section MoreSampleRuns.
Local Open Scope Z_scope.
Import Sample MoreSamples.

(** "600519" followed by ".SH". *)
Lemma normalize_drops_any_suffix_sample :
  ~ In dot (py "600519") /\
  _normalize_stock_symbol (Some (py "600519" ++ dot :: py "SH")) =
  _normalize_stock_symbol (Some (py "600519")).
Proof.
  assert (~ In dot (py "600519")) as H
    by (vm_compute; intuition discriminate).
  split; [exact H|].
  exact (@normalize_drops_any_suffix (py "600519") (py "SH") H).
Defined.

(** A blank before and a line feed after "600519.SH". *)
Lemma normalize_ignores_padding_sample :
  forallb isspace [32%N] = true /\ forallb isspace [10%N] = true /\
  _normalize_stock_symbol (Some ([32%N] ++ py "600519.SH" ++ [10%N])) =
  _normalize_stock_symbol (Some (py "600519.SH")).
Proof.
  split; [reflexivity|]. split; [reflexivity|].
  exact (@normalize_ignores_padding [32%N] (py "600519.SH") [10%N]
           eq_refl eq_refl).
Defined.

(** " 6M " is six months. *)
Lemma parse_ignores_case_and_padding_sample :
  0 <= 6 /\ is_ascii_letter 77%N /\
  forallb isspace [32%N] = true /\
  @_parse_interval_to_days latin1
    (IntervalStr ([32%N] ++ str_of_int 6 ++ [77%N] ++ [32%N])) 365 =
  Ok 180.
Proof.
  assert (0 <= 6) as C by lia.
  assert (is_ascii_letter 77%N) as L by (left; lia).
  split; [exact C|]. split; [exact L|]. split; [reflexivity|].
  exact (@parse_ignores_case_and_padding latin1 6 365 77%N [32%N] [32%N]
           C L eq_refl eq_refl).
Defined.

(** The integer -5 and the text "-5". *)
Lemma parse_negative_number_and_text_sample :
  -5 < 0 /\
  @_parse_interval_to_days latin1 (IntervalInt (-5)) 365 = Ok 1 /\
  @_parse_interval_to_days latin1 (IntervalStr (str_of_int (-5))) 365 =
  Ok 365.
Proof.
  assert (-5 < 0) as H by lia.
  split; [exact H|].
  exact (@parse_negative_number_and_text latin1 (-5) 365 H).
Defined.

(** "1y" is answered as the integer 365. *)
Lemma response_depends_on_day_count_sample :
  0 < 1 /\
  @get_stock_data_with_features latin1 frames (Some (py "600519"))
    (IntervalStr (str_of_int 1 ++ py "y")) world [] =
  @get_stock_data_with_features latin1 frames (Some (py "600519"))
    (IntervalInt (1 * 365)) world [].
Proof.
  assert (0 < 1) as H by lia.
  split; [exact H|].
  exact (proj1 (@response_depends_on_day_count latin1 frames 1
                  (Some (py "600519")) world [] H)).
Defined.

(** On 3 November 2026 the interval "30d" resolves. *)
Lemma resolver_returns_exactly_within_calendar_sample :
  @clock_in_range frames world /\
  @_parse_interval_to_days latin1 (IntervalStr (py "30d")) 365 = Ok 30 /\
  ((exists range,
      @_calc_date_range latin1 frames (IntervalStr (py "30d")) world [] =
      (Ok range, [])) <-> 30 < today world).
Proof.
  assert (@clock_in_range frames world) as Hc
    by (vm_compute; split; congruence).
  split; [exact Hc|]. split; [reflexivity|].
  exact (proj1 (@resolver_returns_exactly_within_calendar latin1 frames
                  (IntervalStr (py "30d")) world [] 30 Hc eq_refl)).
Defined.

(** A frame without the volume column gives the empty table; a frame in
    which two columns carry the label of the close makes the fetcher
    raise. *)
Lemma fetch_needs_all_six_columns_sample :
  _normalize_stock_symbol (Some (py "600519")) <> [] /\
  @frame_empty frames no_volume = false /\
  @frame_empty frames close_twice = false /\
  fst (@fetch_china_stock_data frames (Some (py "600519"))
         (strftime_Ymd 739893) (strftime_Ymd 739923)
         world_without_volume []) = Ok [] /\
  fst (@fetch_china_stock_data frames (Some (py "600519"))
         (strftime_Ymd 739893) (strftime_Ymd 739923)
         world_with_close_twice []) = Raise TypeError.
Proof.
  assert (_normalize_stock_symbol (Some (py "600519")) <> []) as H
    by (vm_compute; discriminate).
  split; [exact H|]. split; [reflexivity|]. split; [reflexivity|]. split.
  - exact (proj1 (@fetch_needs_all_six_columns frames (Some (py "600519"))
                    (strftime_Ymd 739893) (strftime_Ymd 739923)
                    world_without_volume [] no_volume H eq_refl eq_refl)).
  - exact (proj1 (@fetch_needs_all_six_columns frames (Some (py "600519"))
                    (strftime_Ymd 739893) (strftime_Ymd 739923)
                    world_with_close_twice [] close_twice H eq_refl eq_refl)).
Defined.

(** "600519.SH" and " 600519 ". *)
Lemma response_depends_on_symbol_sample :
  _normalize_stock_symbol (Some (py "600519.SH")) =
  _normalize_stock_symbol (Some (py " 600519 ")) /\
  snd (@get_stock_data_with_features latin1 frames (Some (py "600519.SH"))
         (IntervalStr (py "30d")) world []) =
  snd (@get_stock_data_with_features latin1 frames (Some (py " 600519 "))
         (IntervalStr (py "30d")) world []).
Proof.
  split; [reflexivity|].
  exact (proj1 (@response_depends_on_symbol latin1 frames
                  (Some (py "600519.SH")) (Some (py " 600519 "))
                  (IntervalStr (py "30d")) world [] eq_refl)).
Defined.

(** Posting 30 and getting with "30". *)
Lemma post_integer_as_get_text_sample :
  0 <= 30 /\
  @Api.get_stock latin1 frames (py "600519") (str_of_int 30) world [] =
  @Api.post_stock latin1 frames
    {| Api.req_stock_code := py "600519";
       Api.req_interval := Api.AsInt 30 |} world [].
Proof.
  assert (0 <= 30) as C by lia.
  split; [exact C|].
  exact (@post_integer_as_get_text latin1 frames (py "600519") 30 world [] C).
Defined.

(** Two days with a rising close: no loss on the second day, and no
    relative strength index. *)
Lemma rsi_undefined_where_average_loss_is_zero_sample :
  exists r,
    nth_error (@feature_engineering frames rising) 1 = Some r /\
    (nth 1 (@avg_loss frames (map (fun b => as_float (Close b)) rising)) nan
       =? 0)%float = true /\
    exists x, is_nan x = true /\ RSI r = @round frames 4 x.
Proof.
  eexists. split; [vm_compute; reflexivity|].
  split; [reflexivity|].
  exact (@rsi_undefined_where_average_loss_is_zero frames rising 1 _
           eq_refl eq_refl).
Defined.

(** The second of two days with a rising close. *)
Lemma indicators_row_by_row_sample :
  exists r,
    nth_error (@feature_engineering frames rising) 1 = Some r /\
    Daily_Return r = @round frames 4 (12 / 11 - 1)%float.
Proof.
  eexists. split; [vm_compute; reflexivity|].
  exact (proj1 (proj2 (proj2
           (@indicators_row_by_row frames rising 1 _ eq_refl)))).
Defined.

End MoreSampleRuns.
